(** * SynthSR.brain_generator: the BrainGenerator orchestration class

    A shallow embedding of [SynthSR/brain_generator.py].  The class wraps
    three collaborators (the lab2im utilities, the Keras label-to-image
    model and the model-input generator); they are an interface here, and
    the code of the class is written over that interface.

    Python exceptions are an error monad, numpy arrays are a shape with a
    row-major buffer, the generator object of [_build_brain_generator]
    is an explicit state, and the mutable object [self] is passed and
    returned. *)

From Stdlib Require Import String ZArith Bool Lia Arith PeanoNat List Sorted.
Import ListNotations.
Local Open Scope string_scope.
Local Open Scope list_scope.
Local Open Scope nat_scope.

(* ------------------------------------------------------------------ *)
(** ** Exceptions *)

Inductive exn : Type :=
| AssertionError (msg : string)
| StopIteration
| RuntimeError (msg : string)
| IndexError
| ValueError (msg : string)
| TypeError (msg : string)
| External (what : string).   (* raised inside a collaborator *)

Inductive result (A : Type) : Type :=
| Ok (a : A)
| Raise (e : exn).
Arguments Ok {A} a.
Arguments Raise {A} e.

Definition bind {A B} (r : result A) (k : A -> result B) : result B :=
  match r with
  | Ok a => k a
  | Raise e => Raise e
  end.

Notation "x <- c ;; k" := (bind c (fun x => k))
  (at level 61, c at next level, right associativity).
Notation "c ;;; k" := (bind c (fun _ => k))
  (at level 61, right associativity).

(** [assert cond, msg] *)
Definition assert (cond : bool) (msg : string) : result unit :=
  if cond then Ok tt else Raise (AssertionError msg).

Definition is_ok {A} (r : result A) : bool :=
  match r with Ok _ => true | Raise _ => false end.

(* ------------------------------------------------------------------ *)
(** ** numpy arrays *)

(** The dtypes that are kept apart.  [dt_wide] stands for the 64-bit
    integers and the floats; the integer dtypes of 8, 16 and 32 bits are
    narrow: a sum can leave their range. *)
Inductive int_width : Type := W8 | W16 | W32.

Inductive np_dtype : Type :=
| dt_wide
| dt_narrow (signed : bool) (width : int_width).

Definition bits (w : int_width) : Z :=
  match w with W8 => 8 | W16 => 16 | W32 => 32 end%Z.

Record ndarray (A : Type) : Type := mk_array {
  shape : list nat;
  data : list A;         (* row-major (C order) buffer *)
  dtype : np_dtype
}.
Arguments mk_array {A} shape data dtype.
Arguments shape {A} n.
Arguments data {A} n.
Arguments dtype {A} n.

(** An array of the default dtype ([np.array] of Python numbers,
    [np.arange], [np.zeros]). *)
Definition mk_ndarray {A} (shape : list nat) (data : list A) : ndarray A :=
  mk_array shape data dt_wide.
Arguments mk_ndarray {A} shape data /.

(** The value that an integer takes when stored in a dtype: narrow
    dtypes wrap around.  A 64-bit value is left as it is: an array
    cannot hold the 2^63 entries that would take a class index there. *)
Definition wrap (d : np_dtype) (z : Z) : Z :=
  match d with
  | dt_wide => z
  | dt_narrow false w => z mod 2 ^ bits w
  | dt_narrow true w => (z + 2 ^ (bits w - 1)) mod 2 ^ bits w - 2 ^ (bits w - 1)
  end%Z.

(** [x + k] for a NumPy integer scalar [x] of dtype [d] and a Python
    int [k].  NumPy 2 (NEP 50) keeps the dtype of the scalar, so that
    the sum wraps; earlier versions promote the scalar to the default
    64-bit integer first. *)
Definition scalar_plus_int (numpy_2 : bool) (d : np_dtype) (x k : Z) : Z :=
  if numpy_2 then wrap d (x + k)%Z else (x + k)%Z.

(** [np.result_type] of two of these dtypes. *)
Definition next_width (w : int_width) : option int_width :=
  match w with W8 => Some W16 | W16 => Some W32 | W32 => None end.

Definition wider (w1 w2 : int_width) : int_width :=
  if (bits w1 <? bits w2)%Z then w2 else w1.

Definition promote (d1 d2 : np_dtype) : np_dtype :=
  match d1, d2 with
  | dt_wide, _ | _, dt_wide => dt_wide
  | dt_narrow s1 w1, dt_narrow s2 w2 =>
      if Bool.eqb s1 s2 then dt_narrow s1 (wider w1 w2)
      else
        let (ws, wu) := if s1 then (w1, w2) else (w2, w1) in
        if (bits wu <? bits ws)%Z then dt_narrow true ws
        else match next_width wu with
             | Some w => dt_narrow true w
             | None => dt_wide
             end
  end.

Definition prod_shape (s : list nat) : nat := fold_right Nat.mul 1 s.

(** An array whose buffer has as many elements as its shape says. *)
Definition well_formed {A} (a : ndarray A) : Prop :=
  length (data a) = prod_shape (shape a).

Definition shape_eqb (s t : list nat) : bool :=
  if list_eq_dec Nat.eq_dec s t then true else false.

(** [a[i]] for a non-negative [i]: the [i]-th sub-array along axis 0. *)
Definition getitem {A} (a : ndarray A) (i : nat) : result (ndarray A) :=
  match shape a with
  | [] => Raise IndexError
  | d :: s =>
      if i <? d
      then Ok (mk_array s (firstn (prod_shape s) (skipn (i * prod_shape s) (data a)))
                 (dtype a))
      else Raise IndexError
  end.

(** [np.stack(l, axis=0)] *)
Definition np_stack {A} (l : list (ndarray A)) : result (ndarray A) :=
  match l with
  | [] => Raise (ValueError "need at least one array to stack")
  | a :: _ =>
      if forallb (fun b => shape_eqb (shape b) (shape a)) l
      then Ok (mk_array (length l :: shape a) (concat (map data l))
                 (fold_right promote (dtype a) (map dtype l)))
      else Raise (ValueError "all input arrays must have the same shape")
  end.

(** [np.arange(n)] *)
Definition np_arange (n : Z) : ndarray Z :=
  mk_ndarray [Z.to_nat n] (map Z.of_nat (seq 0 (Z.to_nat n))).

(** [np.unique(a)]: the sorted distinct values of the flattened array. *)
Fixpoint insert_unique (x : Z) (l : list Z) : list Z :=
  match l with
  | [] => [x]
  | y :: l' =>
      if (x <? y)%Z then x :: l
      else if (x =? y)%Z then l
      else y :: insert_unique x l'
  end.

Definition sorted_unique (l : list Z) : list Z := fold_right insert_unique [] l.

Definition np_unique (a : ndarray Z) : ndarray Z :=
  let u := sorted_unique (data a) in mk_array [length u] u (dtype a).

(** [np.max(a)]; a zero-size array has no maximum. *)
Definition np_max (a : ndarray Z) : result Z :=
  match data a with
  | [] => Raise (ValueError "zero-size array to reduction operation maximum which has no identity")
  | x :: l => Ok (fold_left Z.max l x)
  end.

Definition list_Z_eqb (l m : list Z) : bool :=
  if list_eq_dec Z.eq_dec l m then true else false.

(** [np.array_equal(a, b)] *)
Definition np_array_equal (a b : ndarray Z) : bool :=
  shape_eqb (shape a) (shape b) && list_Z_eqb (data a) (data b).

(** [a.shape[0]] *)
Definition shape0 {A} (a : ndarray A) : result nat :=
  match shape a with
  | [] => Raise IndexError
  | d :: _ => Ok d
  end.

(** [len(a)] of an array; a 0-d array is unsized. *)
Definition len_ndarray {A} (a : ndarray A) : result nat :=
  match shape a with
  | [] => Raise (TypeError "len() of unsized object")
  | d :: _ => Ok d
  end.

(* ------------------------------------------------------------------ *)
(** ** Values handled by the class *)

(** A configuration value given either directly or as the path of a
    saved numpy array. *)
Inductive or_path (A : Type) : Type :=
| Path (p : string)
| Value (v : A).
Arguments Path {A} p.
Arguments Value {A} v.

(** State of a Python generator object between two [next] calls.  A
    generator that raised is finished for good. *)
Inductive gen_state : Type :=
| Suspended      (* created, or waiting at a [yield] *)
| Finished.

(** The Python object types the class only stores and forwards. *)
Class PyTypes : Type := {
  scalar : Type;            (* floating-point voxel intensity *)
  param : Type;             (* a configuration value: None, bool, number, sequence or array *)
  affine : Type;            (* 4x4 voxel-to-world matrix *)
  header : Type;            (* volume file header *)
  keras_model : Type;       (* the compiled label-to-image graph *)
  inputs_generator : Type;  (* iterator returned by build_model_inputs *)
  model_inputs : Type       (* one bundle of sampled model inputs *)
}.

Section Interface.
Context {T : PyTypes}.

(** What [utils.get_volume_info] returns. *)
Record volume_info : Type := {
  vi_shape : list nat;
  vi_aff : affine;
  vi_n_dims : nat;
  vi_n_channels : nat;
  vi_header : header;
  vi_res : param
}.

(** Keyword arguments of [labels_to_image_model]. *)
Record l2i_kwargs : Type := {
  l2i_labels_shape : list nat;
  l2i_input_channels : list param;
  l2i_output_channel : list param;
  l2i_generation_labels : ndarray Z;
  l2i_n_neutral_labels : Z;
  l2i_atlas_res : param;
  l2i_target_res : param;
  l2i_output_shape : param;
  l2i_output_div_by_n : param;
  l2i_padding_margin : param;
  l2i_flipping : param;
  l2i_aff : affine;
  l2i_scaling_bounds : param;
  l2i_rotation_bounds : param;
  l2i_shearing_bounds : param;
  l2i_translation_bounds : param;
  l2i_nonlin_std : param;
  l2i_nonlin_shape_factor : param;
  l2i_simulate_registration_error : param;
  l2i_data_res : param;
  l2i_thickness : param;
  l2i_downsample : param;
  l2i_build_reliability_maps : param;
  l2i_blur_range : param;
  l2i_bias_field_std : param;
  l2i_bias_shape_factor : param
}.

(** Keyword arguments of [build_model_inputs]. *)
Record bmi_kwargs : Type := {
  bmi_path_label_maps : list string;
  bmi_n_labels : nat;
  bmi_prior_means : param;
  bmi_prior_stds : param;
  bmi_prior_distributions : param;
  bmi_path_images : option (list string);
  bmi_batchsize : Z;
  bmi_n_channels : nat;
  bmi_generation_classes : ndarray Z
}.

(** The imported functions: [ext.lab2im.utils], [ext.lab2im.edit_volumes],
    [.labels_to_image_model], [.model_inputs], and the Keras model API. *)
Class Collaborators : Type := {
  world : Type;                                            (* state of the random sources *)
  numpy_2 : bool;                                          (* the NumPy in use is 2.0 or later *)
  np_eye4 : affine;                                        (* np.eye(4) *)
  np_load : string -> result (ndarray Z);                  (* np.load of an integer array *)
  np_load_param : string -> result param;                  (* np.load of any other array *)
  list_images_in_folder : string -> result (list string);
  get_volume_info : string -> affine -> result volume_info;
  get_list_labels : string -> result (ndarray Z);          (* first component of the pair *)
  reformat_to_list : param -> result (list param);
  labels_to_image_model : l2i_kwargs -> result keras_model;
  model_outputs : keras_model -> list (list (option nat)); (* symbolic shape of each output tensor *)
  build_model_inputs : bmi_kwargs -> result inputs_generator;
  next_model_inputs :
    inputs_generator -> world -> result model_inputs * inputs_generator * world;
  predict :
    keras_model -> model_inputs -> world -> result (ndarray scalar * ndarray scalar) * world;
  align_volume_to_ref :
    ndarray scalar -> affine -> affine -> nat -> result (ndarray scalar)
}.

End Interface.

(* ------------------------------------------------------------------ *)
(** ** Arguments of the constructor

    The keyword defaults of the signature are filled in by the caller;
    the three arguments whose [None] the body tests are options. *)

Module Args.
Section Args.
Context {T : PyTypes}.

Record t : Type := {
  labels_dir : string;
  prior_means : or_path param;
  prior_stds : or_path param;
  prior_distributions : param;
  generation_labels : option (or_path (ndarray Z));
  images_dir : option string;
  n_neutral_labels : option Z;
  padding_margin : or_path param;
  batchsize : Z;
  input_channels : param;
  output_channel : param;
  target_res : or_path param;
  output_shape : or_path param;
  output_div_by_n : param;
  generation_classes : option (or_path (ndarray Z));
  flipping : param;
  scaling_bounds : or_path param;
  rotation_bounds : or_path param;
  shearing_bounds : or_path param;
  translation_bounds : or_path param;
  nonlin_std : param;
  nonlin_shape_factor : param;
  simulate_registration_error : param;
  data_res : or_path param;
  thickness : or_path param;
  downsample : param;
  blur_range : param;
  build_reliability_maps : param;
  bias_field_std : param;
  bias_shape_factor : param
}.

(** The same call with other [generation_classes], [n_neutral_labels]
    and [images_dir] arguments. *)
Definition override (classes : option (or_path (ndarray Z))) (neutral : option Z)
    (images : option string) (a : t) : t := {|
  labels_dir := labels_dir a;
  prior_means := prior_means a;
  prior_stds := prior_stds a;
  prior_distributions := prior_distributions a;
  generation_labels := generation_labels a;
  images_dir := images;
  n_neutral_labels := neutral;
  padding_margin := padding_margin a;
  batchsize := batchsize a;
  input_channels := input_channels a;
  output_channel := output_channel a;
  target_res := target_res a;
  output_shape := output_shape a;
  output_div_by_n := output_div_by_n a;
  generation_classes := classes;
  flipping := flipping a;
  scaling_bounds := scaling_bounds a;
  rotation_bounds := rotation_bounds a;
  shearing_bounds := shearing_bounds a;
  translation_bounds := translation_bounds a;
  nonlin_std := nonlin_std a;
  nonlin_shape_factor := nonlin_shape_factor a;
  simulate_registration_error := simulate_registration_error a;
  data_res := data_res a;
  thickness := thickness a;
  downsample := downsample a;
  blur_range := blur_range a;
  build_reliability_maps := build_reliability_maps a;
  bias_field_std := bias_field_std a;
  bias_shape_factor := bias_shape_factor a
|}.

End Args.
End Args.

(* ------------------------------------------------------------------ *)
(** ** The class *)

Section BrainGenerator.
Context {T : PyTypes} {C : Collaborators}.

(** The attributes assigned by lines 173-236 of [__init__]; no method
    assigns them again. *)
Record Config : Type := {
  labels_paths : list string;
  images_paths : option (list string);
  labels_shape : list nat;
  aff : affine;
  n_dims : nat;
  header_ : header;
  atlas_res : param;
  generation_labels : ndarray Z;
  n_neutral_labels : Z;
  batchsize : Z;
  input_channels : list param;
  output_channel : list param;
  n_channels : nat;
  target_res : param;
  padding_margin : param;
  flipping : param;
  output_shape : param;
  output_div_by_n : param;
  generation_classes : ndarray Z;
  prior_distributions : param;
  prior_means : param;
  prior_stds : param;
  scaling_bounds : param;
  rotation_bounds : param;
  shearing_bounds : param;
  translation_bounds : param;
  nonlin_std : param;
  nonlin_shape_factor : param;
  simulate_registration_error : param;
  data_res : param;
  thickness : param;
  downsample : param;
  blur_range : param;
  build_reliability_maps : param;
  bias_field_std : param;
  bias_shape_factor : param
}.

(** The object: the configuration, the model built from it, and the two
    generator objects, which are the only attributes that change after
    construction.  The attribute [labels_to_image_model] has a trailing
    underscore here, the imported function having the same name (and so
    has [header] in [Config], next to the type of headers). *)
Record BrainGenerator : Type := {
  config :> Config;
  labels_to_image_model_ : keras_model;
  model_output_shape : list (option nat);
  model_inputs_generator : inputs_generator;
  brain_generator : gen_state
}.

(** Modelled from the spec: [utils.load_array_if_path] is not in this
    file.  The spec has every scalar/array/file-path parameter resolved
    once at construction into a concrete value: a path is loaded from
    disk, anything else is passed through. *)
Definition load_array_if_path {A} (load : string -> result A) (v : or_path A) : result A :=
  match v with
  | Path p => load p
  | Value x => Ok x
  end.

(** [l[0]] of a Python list. *)
Definition list_first {A} (l : list A) : result A :=
  match l with
  | [] => Raise IndexError
  | x :: _ => Ok x
  end.

(** The block "# prepare data files" (lines 173-178). *)
Definition init_data_files (a : Args.t) : result (list string * option (list string)) :=
  lp <- list_images_in_folder (Args.labels_dir a) ;;
  match Args.images_dir a with
  | None => Ok (lp, None)
  | Some d =>
      ip <- list_images_in_folder d ;;
      assert (length lp =? length ip) "Different number of images and segmentations" ;;;
      Ok (lp, Some ip)
  end.

(** Lines 183-186: the generation labels. *)
Definition init_generation_labels (a : Args.t) : result (ndarray Z) :=
  match Args.generation_labels a with
  | Some g => load_array_if_path np_load g
  | None => get_list_labels (Args.labels_dir a)
  end.

(** The block "# GMM parameters" up to the class map (lines 204-212). *)
Definition init_generation_classes
    (arg : option (or_path (ndarray Z))) (labels : ndarray Z) : result (ndarray Z) :=
  match arg with
  | Some gc =>
      classes <- load_array_if_path np_load gc ;;
      assert (shape_eqb (shape classes) (shape labels))
        "if provided, generation labels should have the same shape as generation_labels" ;;;
      let unique_classes := np_unique classes in
      m <- np_max unique_classes ;;
      assert (np_array_equal unique_classes
                (np_arange (scalar_plus_int numpy_2 (dtype unique_classes) m 1)))
        "generation_classes should a linear range between 0 and its maximum value." ;;;
      Ok classes
  | None =>
      d <- shape0 labels ;;
      Ok (np_arange (Z.of_nat d))
  end.

Definition _build_labels_to_image_model (self : Config)
  : result (keras_model * list (option nat)) :=
  lab_to_im_model <- labels_to_image_model {|
      l2i_labels_shape := labels_shape self;
      l2i_input_channels := input_channels self;
      l2i_output_channel := output_channel self;
      l2i_generation_labels := generation_labels self;
      l2i_n_neutral_labels := n_neutral_labels self;
      l2i_atlas_res := atlas_res self;
      l2i_target_res := target_res self;
      l2i_output_shape := output_shape self;
      l2i_output_div_by_n := output_div_by_n self;
      l2i_padding_margin := padding_margin self;
      l2i_flipping := flipping self;
      l2i_aff := np_eye4;
      l2i_scaling_bounds := scaling_bounds self;
      l2i_rotation_bounds := rotation_bounds self;
      l2i_shearing_bounds := shearing_bounds self;
      l2i_translation_bounds := translation_bounds self;
      l2i_nonlin_std := nonlin_std self;
      l2i_nonlin_shape_factor := nonlin_shape_factor self;
      l2i_simulate_registration_error := simulate_registration_error self;
      l2i_data_res := data_res self;
      l2i_thickness := thickness self;
      l2i_downsample := downsample self;
      l2i_build_reliability_maps := build_reliability_maps self;
      l2i_blur_range := blur_range self;
      l2i_bias_field_std := bias_field_std self;
      l2i_bias_shape_factor := bias_shape_factor self |} ;;
  output0 <- list_first (model_outputs lab_to_im_model) ;;
  Ok (lab_to_im_model, tl output0).

Definition _build_model_inputs_generator (self : Config) : result inputs_generator :=
  n_labels <- len_ndarray (generation_labels self) ;;
  build_model_inputs {|
      bmi_path_label_maps := labels_paths self;
      bmi_n_labels := n_labels;
      bmi_prior_means := prior_means self;
      bmi_prior_stds := prior_stds self;
      bmi_prior_distributions := prior_distributions self;
      bmi_path_images := images_paths self;
      bmi_batchsize := batchsize self;
      bmi_n_channels := n_channels self;
      bmi_generation_classes := generation_classes self |}.

(** Calling the generator function runs none of its body. *)
Definition _build_brain_generator : gen_state := Suspended.

(** Lines 173-236: the configuration attributes. *)
Definition init_config (a : Args.t) : result Config :=
  paths <- init_data_files a ;;
  first <- list_first (fst paths) ;;
  info <- get_volume_info first np_eye4 ;;
  labels <- init_generation_labels a ;;
  n_neutral <- match Args.n_neutral_labels a with
               | Some n => Ok n
               | None => d <- shape0 labels ;; Ok (Z.of_nat d)
               end ;;
  in_channels <- reformat_to_list (Args.input_channels a) ;;
  out_channel <- reformat_to_list (Args.output_channel a) ;;
  t_res <- load_array_if_path np_load_param (Args.target_res a) ;;
  margin <- load_array_if_path np_load_param (Args.padding_margin a) ;;
  o_shape <- load_array_if_path np_load_param (Args.output_shape a) ;;
  classes <- init_generation_classes (Args.generation_classes a) labels ;;
  p_means <- load_array_if_path np_load_param (Args.prior_means a) ;;
  p_stds <- load_array_if_path np_load_param (Args.prior_stds a) ;;
  scaling <- load_array_if_path np_load_param (Args.scaling_bounds a) ;;
  rotation <- load_array_if_path np_load_param (Args.rotation_bounds a) ;;
  shearing <- load_array_if_path np_load_param (Args.shearing_bounds a) ;;
  translation <- load_array_if_path np_load_param (Args.translation_bounds a) ;;
  d_res <- load_array_if_path np_load_param (Args.data_res a) ;;
  thick <- load_array_if_path np_load_param (Args.thickness a) ;;
  Ok {| labels_paths := fst paths;
        images_paths := snd paths;
        labels_shape := vi_shape info;
        aff := vi_aff info;
        n_dims := vi_n_dims info;
        header_ := vi_header info;
        atlas_res := vi_res info;
        generation_labels := labels;
        n_neutral_labels := n_neutral;
        batchsize := Args.batchsize a;
        input_channels := in_channels;
        output_channel := out_channel;
        n_channels := length in_channels;
        target_res := t_res;
        padding_margin := margin;
        flipping := Args.flipping a;
        output_shape := o_shape;
        output_div_by_n := Args.output_div_by_n a;
        generation_classes := classes;
        prior_distributions := Args.prior_distributions a;
        prior_means := p_means;
        prior_stds := p_stds;
        scaling_bounds := scaling;
        rotation_bounds := rotation;
        shearing_bounds := shearing;
        translation_bounds := translation;
        nonlin_std := Args.nonlin_std a;
        nonlin_shape_factor := Args.nonlin_shape_factor a;
        simulate_registration_error := Args.simulate_registration_error a;
        data_res := d_res;
        thickness := thick;
        downsample := Args.downsample a;
        blur_range := Args.blur_range a;
        build_reliability_maps := Args.build_reliability_maps a;
        bias_field_std := Args.bias_field_std a;
        bias_shape_factor := Args.bias_shape_factor a |}.

Definition __init__ (a : Args.t) : result BrainGenerator :=
  cfg <- init_config a ;;
  built <- _build_labels_to_image_model cfg ;;
  inputs <- _build_model_inputs_generator cfg ;;
  Ok {| config := cfg;
        labels_to_image_model_ := fst built;
        model_output_shape := snd built;
        model_inputs_generator := inputs;
        brain_generator := _build_brain_generator |}.

(** Assignment to the two generator attributes. *)
Definition with_generators (inputs : inputs_generator) (g : gen_state)
    (self : BrainGenerator) : BrainGenerator :=
  {| config := config self;
     labels_to_image_model_ := labels_to_image_model_ self;
     model_output_shape := model_output_shape self;
     model_inputs_generator := inputs;
     brain_generator := g |}.

(** An exception leaving a generator body; a [StopIteration] raised
    inside it reaches the caller as a [RuntimeError] (PEP 479, Python
    3.7 and later). *)
Definition generator_raise (e : exn) : exn :=
  match e with
  | StopIteration => RuntimeError "generator raised StopIteration"
  | _ => e
  end.

(** [next(self.brain_generator)]: one resumption of the body of
    [_build_brain_generator], from the loop head to the [yield].  An
    exception raised in the body finishes the generator. *)
Definition next_brain_generator (self : BrainGenerator) (w : world)
  : result (ndarray scalar * ndarray scalar) * BrainGenerator * world :=
  match brain_generator self with
  | Finished => (Raise StopIteration, self, w)
  | Suspended =>
      match next_model_inputs (model_inputs_generator self) w with
      | (Raise e, inputs, w1) =>
          (Raise (generator_raise e), with_generators inputs Finished self, w1)
      | (Ok model_inputs, inputs, w1) =>
          match predict (labels_to_image_model_ self) model_inputs w1 with
          | (Raise e, w2) =>
              (Raise (generator_raise e), with_generators inputs Finished self, w2)
          | (Ok image_target, w2) =>
              (Ok image_target, with_generators inputs Suspended self, w2)
          end
      end
  end.

(** The [for i in range(self.batchsize)] loop of [generate_brain], over
    the remaining indices, with the two lists built so far. *)
Fixpoint put_back_in_native_space (self : Config) (image target : ndarray scalar)
    (range : list nat) (list_images list_targets : list (ndarray scalar))
  : result (list (ndarray scalar) * list (ndarray scalar)) :=
  match range with
  | [] => Ok (list_images, list_targets)
  | i :: range' =>
      image_i <- getitem image i ;;
      im <- align_volume_to_ref image_i np_eye4 (aff self) (n_dims self) ;;
      target_i <- getitem target i ;;
      tg <- align_volume_to_ref target_i np_eye4 (aff self) (n_dims self) ;;
      put_back_in_native_space self image target range'
        (list_images ++ [im]) (list_targets ++ [tg])
  end.

(** [range(n)] for a Python int. *)
Definition py_range (n : Z) : list nat := seq 0 (Z.to_nat n).

Definition generate_brain (self : BrainGenerator) (w : world)
  : result (ndarray scalar * ndarray scalar) * BrainGenerator * world :=
  match next_brain_generator self w with
  | (Raise e, self', w') => (Raise e, self', w')
  | (Ok (image, target), self', w') =>
      (lists <- put_back_in_native_space self' image target
                  (py_range (batchsize self')) [] [] ;;
       image' <- np_stack (fst lists) ;;
       target' <- np_stack (snd lists) ;;
       Ok (image', target'),
       self', w')
  end.

(** [n] successive calls of [generate_brain]; the results in call order. *)
Fixpoint generate_brains (n : nat) (self : BrainGenerator) (w : world)
  : list (result (ndarray scalar * ndarray scalar)) * BrainGenerator * world :=
  match n with
  | O => ([], self, w)
  | S n' =>
      let '(r, self', w') := generate_brain self w in
      let '(rs, self'', w'') := generate_brains n' self' w' in
      (r :: rs, self'', w'')
  end.

(** The objects a program can hold: a constructed object, after any
    number of [generate_brain] calls. *)
Inductive reachable (a : Args.t) : BrainGenerator -> Prop :=
| reach_init : forall self,
    __init__ a = Ok self -> reachable a self
| reach_call : forall self w r self' w',
    reachable a self ->
    generate_brain self w = (r, self', w') ->
    reachable a self'.

(** A sample of the returned batch: the sample of the canonical batch at
    the same index, put through [align_volume_to_ref] from the identity
    affine to the affine [a_ref]. *)
Definition realigned (a_ref : affine) (n : nat) (batch : ndarray scalar)
    (i : nat) (volume : ndarray scalar) : Prop :=
  exists sample, getitem batch i = Ok sample /\
                 align_volume_to_ref sample np_eye4 a_ref n = Ok volume.

(** The sampler and the synthesizer never raise, and return batches that
    the loop of [generate_brain] can put back and stack, from every
    state of the sampler and of the random source in [I]. *)
Definition always_produces (self : BrainGenerator)
    (I : inputs_generator -> world -> Prop) : Prop :=
  forall g w, I g w ->
    exists bundle g' w1 image target w2 lists image' target',
      next_model_inputs g w = (Ok bundle, g', w1) /\
      predict (labels_to_image_model_ self) bundle w1 = (Ok (image, target), w2) /\
      put_back_in_native_space self image target (py_range (batchsize self)) [] []
        = Ok lists /\
      np_stack (fst lists) = Ok image' /\
      np_stack (snd lists) = Ok target' /\
      I g' w2.



End BrainGenerator.

(* ------------------------------------------------------------------ *)
(** ** Axis operations on arrays *)

(** Cut a buffer into [n] consecutive blocks of [m] elements. *)
Fixpoint chunks {A} (m n : nat) (d : list A) : list (list A) :=
  match n with
  | O => []
  | S n' => firstn m d :: chunks m n' (skipn m d)
  end.

(** The buffer of [np.flip(a, axis)] for an array of shape [s]. *)
Fixpoint flip_data {A} (s : list nat) (axis : nat) (d : list A) : list A :=
  match s with
  | [] => d
  | n :: s' =>
      let blocks := chunks (prod_shape s') n d in
      match axis with
      | O => concat (rev blocks)
      | S axis' => concat (map (flip_data s' axis') blocks)
      end
  end.

Definition np_flip {A} (a : ndarray A) (axis : nat) : ndarray A :=
  mk_array (shape a) (flip_data (shape a) axis (data a)) (dtype a).

(** All the indices of an array of shape [s], in buffer order. *)
Fixpoint indices (s : list nat) : list (list nat) :=
  match s with
  | [] => [[]]
  | d :: s' => flat_map (fun i => map (cons i) (indices s')) (seq 0 d)
  end.

(** Position in the buffer of the element at index [idx]. *)
Fixpoint ravel (s idx : list nat) : nat :=
  match s, idx with
  | _ :: s', i :: idx' => i * prod_shape s' + ravel s' idx'
  | _, _ => 0
  end.

Fixpoint index_of (x : nat) (l : list nat) : option nat :=
  match l with
  | [] => None
  | y :: l' => if x =? y then Some 0 else option_map S (index_of x l')
  end.

(** [np.transpose(a, axes)]: axis [j] of the result is axis [axes[j]] of [a]. *)
Definition np_transpose {A} (a : ndarray A) (axes : list nat) : ndarray A :=
  let out_shape := map (fun ax => nth ax (shape a) 0) axes in
  let source idx :=
    map (fun k => match index_of k axes with
                  | Some j => nth j idx 0
                  | None => 0
                  end) (seq 0 (length (shape a))) in
  mk_array out_shape
    (match data a with
     | [] => []
     | x :: _ => map (fun idx => nth (ravel (shape a) (source idx)) (data a) x)
                   (indices out_shape)
     end)
    (dtype a).

(* ------------------------------------------------------------------ *)
(** ** Re-orientation of a volume *)

(** The orientation of one voxel axis: the world axis it runs along, and
    whether it runs against it. *)
Record axis_orientation : Type := {
  world_axis : nat;
  reversed : bool
}.

(** The orientation an affine implies: one entry per voxel axis. *)
Definition orientation : Type := list axis_orientation.

(** The orientation of the identity affine. *)
Definition canonical (n : nat) : orientation :=
  map (fun i => {| world_axis := i; reversed := false |}) (seq 0 n).

(** For each axis of [ref], the axis of [src] that runs along the same
    world axis. *)
Fixpoint matching_axes (src ref : orientation) : option (list nat) :=
  match ref with
  | [] => Some []
  | r :: ref' =>
      match index_of (world_axis r) (map world_axis src), matching_axes src ref' with
      | Some i, Some l => Some (i :: l)
      | _, _ => None
      end
  end.

(** The axes of [ref] that run opposite to the matching axis of [src]. *)
Definition opposite_axes (src ref : orientation) (axes : list nat) : list nat :=
  map fst
    (filter (fun jr =>
               xorb (reversed (snd jr))
                    (reversed (nth (nth (fst jr) axes 0) src (snd jr))))
            (combine (seq 0 (length ref)) ref)).

(** Modelled from the spec: [edit_volumes.align_volume_to_ref] is not in
    this file.  The spec has it re-express a volume, given in the
    orientation implied by one affine, in the orientation implied by a
    reference affine: the spatial axes are permuted so that each runs
    along the world axis of the reference, and reversed where the two
    directions disagree; axes after the [n_dims] spatial ones (channels)
    stay in place. *)
Definition reorient {A} (src ref : orientation) (n_dims : nat) (volume : ndarray A)
  : result (ndarray A) :=
  let rank := length (shape volume) in
  if (n_dims <=? rank) && (length src =? n_dims) && (length ref =? n_dims) then
    match matching_axes src ref with
    | Some axes =>
        let moved := np_transpose volume (axes ++ seq n_dims (rank - n_dims)) in
        Ok (fold_left np_flip (opposite_axes src ref axes) moved)
    | None => Raise (ValueError "affine matrices do not describe the same axes")
    end
  else Raise (ValueError "affine matrix does not match the volume").

(** The shape of a volume of shape [s] once it is re-expressed from the
    canonical orientation in the orientation [ref]. *)
Definition native_shape (ref : orientation) (s : list nat) : list nat :=
  map (fun r => nth (world_axis r) s 0) ref ++ skipn (length ref) s.

Section Contracts.
Context {T : PyTypes} {C : Collaborators}.

(** Modelled from the spec: the output contract of the synthesizer
    ([labels_to_image_model] and the model it returns are not in this
    file).  The model emits a batch of input-channel volumes and a batch
    of target volumes, both at the fixed output shape it was built for,
    each followed by its channel count. *)
Definition synthesizer_contract : Prop :=
  forall m mi w image target w',
    predict m mi w = (Ok (image, target), w') ->
    exists n spatial c_in c_tgt,
      list_first (model_outputs m) = Ok (None :: map Some (spatial ++ [c_in])) /\
      shape image = n :: spatial ++ [c_in] /\
      shape target = n :: spatial ++ [c_tgt].

(** Modelled from the spec: [edit_volumes.align_volume_to_ref] is
    [reorient] on the orientations that the two affines imply for
    [n] spatial dimensions, and the identity affine implies the
    canonical one. *)
Definition reorientation_contract (orientation_of : affine -> orientation) (n : nat) : Prop :=
  orientation_of np_eye4 = canonical n /\
  forall volume a a_ref,
    align_volume_to_ref volume a a_ref n
    = reorient (orientation_of a) (orientation_of a_ref) n volume.

End Contracts.

(** ** Counting the calls made to the sampler and to the synthesizer

    The same collaborators, with the number of bundles drawn and the
    number of [predict] calls carried next to the random source. *)
Module Counting.
Section Counting.
Context {T : PyTypes} (C : Collaborators).

Definition collaborators : Collaborators := {|
  world := @world T C * nat * nat;
  numpy_2 := numpy_2;
  np_eye4 := np_eye4;
  np_load := np_load;
  np_load_param := np_load_param;
  list_images_in_folder := list_images_in_folder;
  get_volume_info := get_volume_info;
  get_list_labels := get_list_labels;
  reformat_to_list := reformat_to_list;
  labels_to_image_model := labels_to_image_model;
  model_outputs := model_outputs;
  build_model_inputs := build_model_inputs;
  next_model_inputs := fun g w =>
    let '(w0, draws, calls) := w in
    let '(r, g', w1) := next_model_inputs g w0 in
    (r, g', (w1, S draws, calls));
  predict := fun m mi w =>
    let '(w0, draws, calls) := w in
    let '(r, w1) := predict m mi w0 in
    (r, (w1, draws, S calls));
  align_volume_to_ref := align_volume_to_ref
|}.

End Counting.
End Counting.

(* ------------------------------------------------------------------ *)
(** ** Left-right flip of a label map *)

Fixpoint lookup_fst (v : Z) (pairs : list (Z * Z)) : option Z :=
  match pairs with
  | [] => None
  | (l, r) :: pairs' => if (v =? l)%Z then Some r else lookup_fst v pairs'
  end.

Fixpoint lookup_snd (v : Z) (pairs : list (Z * Z)) : option Z :=
  match pairs with
  | [] => None
  | (l, r) :: pairs' => if (v =? r)%Z then Some l else lookup_snd v pairs'
  end.

(** The left labels with their paired right labels, for a label list
    [background, non-sided..., left..., right...]. *)
Definition left_right_pairs (labels : list Z) (n_neutral : nat) : list (Z * Z) :=
  let sided := skipn n_neutral labels in
  let m := length sided / 2 in
  combine (firstn m sided) (skipn m sided).

(** Modelled from the spec: the relabeling of the flip stage of the
    synthesizer ([labels_to_image_model], not in this file).  Each left
    label is exchanged with its paired right label; every other label
    is unchanged. *)
Definition swap_left_right (labels : list Z) (n_neutral : nat) (v : Z) : Z :=
  let pairs := left_right_pairs labels n_neutral in
  match lookup_fst v pairs with
  | Some r => r
  | None =>
      match lookup_snd v pairs with
      | Some l => l
      | None => v
      end
  end.

(** Modelled from the spec: the deterministic left-right flip of the
    synthesizer ([labels_to_image_model], not in this file).  The label
    map is mirrored along the flip axis and relabeled. *)
Definition flip_label_map (labels : list Z) (n_neutral : nat) (flip_axis : nat)
    (label_map : ndarray Z) : ndarray Z :=
  let mirrored := np_flip label_map flip_axis in
  mk_array (shape mirrored) (map (swap_left_right labels n_neutral) (data mirrored))
    (dtype mirrored).

(* ------------------------------------------------------------------ *)
(** ** An in-memory set of collaborators

    A small disk of label maps and saved arrays, a sampler that picks
    the label map by the state of the random source, and a synthesizer
    that emits volumes of its output shape and refuses a label map whose
    shape is not the one it was built for.  Affines are kept as the
    orientation they imply. *)

Module Fixture.

Record volume_file : Type := {
  vf_shape : list nat;          (* shape in the canonical frame *)
  vf_orientation : orientation  (* orientation of the file's affine *)
}.

Record disk : Type := {
  folders : list (string * list string);
  volumes : list (string * volume_file);
  arrays : list (string * ndarray Z)
}.

Fixpoint lookup {A} (k : string) (l : list (string * A)) : result A :=
  match l with
  | [] => Raise (External "no such file or directory")
  | (k', v) :: l' => if String.eqb k k' then Ok v else lookup k l'
  end.

Record synthesizer : Type := {
  syn_labels_shape : list nat;
  syn_output_shape : list nat;   (* spatial output shape *)
  syn_n_inputs : nat;
  syn_n_targets : nat
}.

Record sampler : Type := {
  smp_paths : list string;
  smp_batchsize : Z
}.

#[export] Instance types : PyTypes := {|
  scalar := Z;
  param := list Z;
  affine := orientation;
  header := unit;
  keras_model := synthesizer;
  inputs_generator := sampler;
  model_inputs := string * Z     (* the label map drawn, and the batch size *)
|}.

Definition volume_of (n : nat) (s : list nat) (seed : nat) : ndarray Z :=
  mk_ndarray (n :: s) (map (fun i => Z.of_nat (seed + i)) (seq 0 (prod_shape (n :: s)))).

Definition fx_labels_to_image_model (k : @l2i_kwargs types) : result synthesizer :=
  let spatial := match l2i_output_shape k with
                 | [] => l2i_labels_shape k
                 | s => map Z.to_nat s
                 end in
  if length spatial =? length (l2i_labels_shape k)
  then Ok {| syn_labels_shape := l2i_labels_shape k;
             syn_output_shape := spatial;
             syn_n_inputs := length (l2i_input_channels k);
             syn_n_targets := length (l2i_output_channel k) |}
  else Raise (External "output_shape does not have one value per dimension").

Definition fx_next (d : disk) (g : sampler) (w : nat)
  : result (string * Z) * sampler * nat :=
  match nth_error (smp_paths g) (w mod length (smp_paths g)) with
  | Some p => (Ok (p, smp_batchsize g), g, S w)
  | None => (Raise (External "no label map to draw from"), g, w)
  end.

Definition fx_predict (d : disk) (m : synthesizer) (mi : string * Z) (w : nat)
  : result (ndarray Z * ndarray Z) * nat :=
  match lookup (fst mi) (volumes d) with
  | Raise e => (Raise e, w)
  | Ok v =>
      if shape_eqb (vf_shape v) (syn_labels_shape m)
      then
        let n := Z.to_nat (snd mi) in
        (Ok (volume_of n (syn_output_shape m ++ [syn_n_inputs m]) w,
             volume_of n (syn_output_shape m ++ [syn_n_targets m]) (w + 100)),
         S w)
      else (Raise (External "label map shape incompatible with the model input"), w)
  end.

#[export] Instance collaborators (d : disk) : @Collaborators types := {|
  world := nat;
  numpy_2 := true;
  np_eye4 := canonical 3;
  np_load := fun p => lookup p (arrays d);
  np_load_param := fun p => a <- lookup p (arrays d) ;; Ok (data a);
  list_images_in_folder := fun p => lookup p (folders d);
  get_volume_info := fun p _ =>
    v <- lookup p (volumes d) ;;
    Ok {| vi_shape := vf_shape v;
          vi_aff := vf_orientation v;
          vi_n_dims := length (vf_shape v);
          vi_n_channels := 1;
          vi_header := tt;
          vi_res := [1; 1; 1]%Z |};
  get_list_labels := fun p => lookup p (arrays d);
  reformat_to_list := fun p => Ok (map (fun z => [z]) p);
  labels_to_image_model := fx_labels_to_image_model;
  model_outputs := fun m =>
    [ None :: map Some (syn_output_shape m ++ [syn_n_inputs m]);
      None :: map Some (syn_output_shape m ++ [syn_n_targets m]) ];
  build_model_inputs := fun k =>
    Ok {| smp_paths := bmi_path_label_maps k; smp_batchsize := bmi_batchsize k |};
  next_model_inputs := fx_next d;
  predict := fx_predict d;
  align_volume_to_ref := fun v a r n => reorient a r n v
|}.

Definition native : orientation := canonical 3.

(** A file stored with its first two voxel axes exchanged. *)
Definition transposed : orientation :=
  [ {| world_axis := 1; reversed := false |};
    {| world_axis := 0; reversed := false |};
    {| world_axis := 2; reversed := false |} ].

(** Two label maps of shape (2,3,2), the first in the orientation [o]. *)
Definition disk_of (o : orientation) (second : list nat) : disk := {|
  folders := [ ("labels", ["labels/a.nii"; "labels/b.nii"]);
               ("images", ["images/a.nii"; "images/b.nii"]);
               ("one_image", ["images/a.nii"]) ];
  volumes := [ ("labels/a.nii", {| vf_shape := [2; 3; 2]; vf_orientation := o |});
               ("labels/b.nii", {| vf_shape := second; vf_orientation := o |}) ];
  arrays := [ ("labels.npy", mk_ndarray [7] [0; 1; 2; 3; 4; 5; 6]%Z);
              ("classes.npy", mk_ndarray [7] [0; 1; 1; 2; 3; 2; 3]%Z) ]
|}.

Definition args : @Args.t types := {|
  Args.labels_dir := "labels";
  Args.prior_means := Value [25; 225]%Z;
  Args.prior_stds := Value [5; 25]%Z;
  Args.prior_distributions := [];
  Args.generation_labels := Some (Path "labels.npy");
  Args.images_dir := None;
  Args.n_neutral_labels := Some 3%Z;
  Args.padding_margin := Value [];
  Args.batchsize := 2%Z;
  Args.input_channels := [1]%Z;
  Args.output_channel := [0]%Z;
  Args.target_res := Value [];
  Args.output_shape := Value [1; 2; 1]%Z;
  Args.output_div_by_n := [];
  Args.generation_classes := Some (Path "classes.npy");
  Args.flipping := [1]%Z;
  Args.scaling_bounds := Value [];
  Args.rotation_bounds := Value [15]%Z;
  Args.shearing_bounds := Value [];
  Args.translation_bounds := Value [5]%Z;
  Args.nonlin_std := [3]%Z;
  Args.nonlin_shape_factor := [];
  Args.simulate_registration_error := [1]%Z;
  Args.data_res := Value [];
  Args.thickness := Value [];
  Args.downsample := [0]%Z;
  Args.blur_range := [];
  Args.build_reliability_maps := [0]%Z;
  Args.bias_field_std := [];
  Args.bias_shape_factor := []
|}.

(** [args] with other class, neutral-label and image-folder arguments. *)
Definition args_with (classes : option (or_path (ndarray Z))) (neutral : option Z)
    (images : option string) : @Args.t types :=
  Args.override classes neutral images args.

(** Both label maps in the canonical orientation, with the same shape. *)
Definition plain_disk : disk := disk_of native [2; 3; 2].

(** Both label maps stored with exchanged axes. *)
Definition transposed_disk : disk := disk_of transposed [2; 3; 2].

(** The second label map has another shape than the first. *)
Definition mixed_disk : disk := disk_of native [4; 4; 4].

Definition plain : @Collaborators types := collaborators plain_disk.
Definition swapped : @Collaborators types := collaborators transposed_disk.
Definition mixed : @Collaborators types := collaborators mixed_disk.

(** The object and the batches of this set of collaborators. *)
Definition object : Type := @BrainGenerator types.
Definition volume : Type := ndarray Z.

Definition unwrap {A : Type} (r : result A)
  : match r return Type with Ok _ => A | Raise _ => exn end :=
  match r with
  | Ok a => a
  | Raise e => e
  end.

(** The objects built from [args] on the three disks. *)
Definition plain_object : object :=
  Eval vm_compute in unwrap (@__init__ types plain args).
Definition swapped_object : object :=
  Eval vm_compute in unwrap (@__init__ types swapped args).
Definition mixed_object : object :=
  Eval vm_compute in unwrap (@__init__ types mixed args).

(** The object built with neither [generation_classes] nor
    [n_neutral_labels]. *)
Definition default_args : @Args.t types := args_with None None None.
Definition default_object : object :=
  Eval vm_compute in unwrap (@__init__ types plain default_args).

(** A class map with a gap, of the shape of the labels, and the class
    map (0, 0, 2). *)
Definition gapped_classes : ndarray Z := mk_ndarray [7] [0; 0; 2; 2; 2; 2; 2]%Z.
Definition short_classes : ndarray Z := mk_ndarray [3] [0; 0; 2]%Z.
Definition gapped_args : @Args.t types :=
  args_with (Some (Value gapped_classes)) (Some 3%Z) None.
Definition short_args : @Args.t types :=
  args_with (Some (Value short_classes)) (Some 3%Z) None.

(** With a folder of real images: as many as label maps, or fewer. *)
Definition paired_args : @Args.t types :=
  args_with None (Some 3%Z) (Some "images").
Definition unpaired_args : @Args.t types :=
  args_with None (Some 3%Z) (Some "one_image").

(** Seven labels of which four are declared neutral: three sided labels. *)
Definition odd_args : @Args.t types := args_with None (Some 4%Z) None.

(** The same call with another [batchsize]. *)
Definition with_batchsize (b : Z) (a : @Args.t types) : @Args.t types := {|
  Args.labels_dir := Args.labels_dir a;
  Args.prior_means := Args.prior_means a;
  Args.prior_stds := Args.prior_stds a;
  Args.prior_distributions := Args.prior_distributions a;
  Args.generation_labels := Args.generation_labels a;
  Args.images_dir := Args.images_dir a;
  Args.n_neutral_labels := Args.n_neutral_labels a;
  Args.padding_margin := Args.padding_margin a;
  Args.batchsize := b;
  Args.input_channels := Args.input_channels a;
  Args.output_channel := Args.output_channel a;
  Args.target_res := Args.target_res a;
  Args.output_shape := Args.output_shape a;
  Args.output_div_by_n := Args.output_div_by_n a;
  Args.generation_classes := Args.generation_classes a;
  Args.flipping := Args.flipping a;
  Args.scaling_bounds := Args.scaling_bounds a;
  Args.rotation_bounds := Args.rotation_bounds a;
  Args.shearing_bounds := Args.shearing_bounds a;
  Args.translation_bounds := Args.translation_bounds a;
  Args.nonlin_std := Args.nonlin_std a;
  Args.nonlin_shape_factor := Args.nonlin_shape_factor a;
  Args.simulate_registration_error := Args.simulate_registration_error a;
  Args.data_res := Args.data_res a;
  Args.thickness := Args.thickness a;
  Args.downsample := Args.downsample a;
  Args.blur_range := Args.blur_range a;
  Args.build_reliability_maps := Args.build_reliability_maps a;
  Args.bias_field_std := Args.bias_field_std a;
  Args.bias_shape_factor := Args.bias_shape_factor a
|}.

(** A batch size of zero. *)
Definition zero_batch_args : @Args.t types := with_batchsize 0%Z args.
Definition zero_batch_object : object :=
  Eval vm_compute in unwrap (@__init__ types plain zero_batch_args).

(** More samples asked for than the label maps the disk holds is fine;
    a batch of three. *)
Definition three_batch_args : @Args.t types := with_batchsize 3%Z args.

(** A disk whose label folder and image folder are empty. *)
Definition empty_disk : disk := {|
  folders := [ ("labels", []); ("images", []); ("one_image", ["images/a.nii"]) ];
  volumes := [];
  arrays := arrays plain_disk
|}.
Definition empty : @Collaborators types := collaborators empty_disk.

(** The object of the mixed disk after the call that drew the refused
    label map. *)
Definition finished_object : object :=
  Eval vm_compute in snd (fst (@generate_brain types mixed mixed_object 1)).

(** A class map that sends the seven labels onto the classes 0, 1, 2. *)
Definition three_classes : ndarray Z := mk_ndarray [7] [2; 0; 1; 1; 0; 2; 2]%Z.
Definition three_classes_args : @Args.t types :=
  args_with (Some (Value three_classes)) (Some 3%Z) None.

(** The plain object with a sampler that asks the synthesizer for one
    sample per batch, while the object takes two. *)
Definition short_sampler_object : object :=
  with_generators
    {| smp_paths := ["labels/a.nii"; "labels/b.nii"]; smp_batchsize := 1 |}
    Suspended plain_object.

(** A class map of dtype uint8 that holds every value of the dtype, over
    256 labels; and the plain collaborators with a NumPy older than 2. *)
Definition byte_classes : ndarray Z :=
  mk_array [256] (map Z.of_nat (seq 0 256)) (dt_narrow false W8).
Definition byte_labels : ndarray Z := mk_ndarray [256] (map Z.of_nat (seq 0 256)).

Definition older_numpy : @Collaborators types := {|
  world := @world types plain;
  numpy_2 := false;
  np_eye4 := @np_eye4 types plain;
  np_load := @np_load types plain;
  np_load_param := @np_load_param types plain;
  list_images_in_folder := @list_images_in_folder types plain;
  get_volume_info := @get_volume_info types plain;
  get_list_labels := @get_list_labels types plain;
  reformat_to_list := @reformat_to_list types plain;
  labels_to_image_model := @labels_to_image_model types plain;
  model_outputs := @model_outputs types plain;
  build_model_inputs := @build_model_inputs types plain;
  next_model_inputs := @next_model_inputs types plain;
  predict := @predict types plain;
  align_volume_to_ref := @align_volume_to_ref types plain
|}.

End Fixture.

(* ================================================================== *)
(** * Properties *)

(** ** The array operations on small arrays *)

Example np_unique_of_gapped :
  np_unique (mk_ndarray [3] [0; 0; 2]%Z) = mk_ndarray [2] [0; 2]%Z.
Proof. reflexivity. Qed.

Example np_max_of_empty :
  is_ok (np_max (mk_ndarray [0] [])) = false.
Proof. reflexivity. Qed.

Example getitem_row :
  getitem (mk_ndarray [2; 3] [1; 2; 3; 4; 5; 6]) 1 = Ok (mk_ndarray [3] [4; 5; 6]).
Proof. reflexivity. Qed.

Example np_stack_rows :
  np_stack [mk_ndarray [3] [1; 2; 3]; mk_ndarray [3] [4; 5; 6]]
  = Ok (mk_ndarray [2; 3] [1; 2; 3; 4; 5; 6]).
Proof. reflexivity. Qed.

Example np_stack_nothing :
  is_ok (np_stack (@nil (ndarray nat))) = false.
Proof. reflexivity. Qed.

Example np_transpose_matrix :
  np_transpose (mk_ndarray [2; 3] [1; 2; 3; 4; 5; 6]) [1; 0]
  = mk_ndarray [3; 2] [1; 4; 2; 5; 3; 6].
Proof. reflexivity. Qed.

Example np_flip_rows :
  np_flip (mk_ndarray [2; 3] [1; 2; 3; 4; 5; 6]) 0
  = mk_ndarray [2; 3] [4; 5; 6; 1; 2; 3].
Proof. reflexivity. Qed.

Example np_flip_columns :
  np_flip (mk_ndarray [2; 3] [1; 2; 3; 4; 5; 6]) 1
  = mk_ndarray [2; 3] [3; 2; 1; 6; 5; 4].
Proof. reflexivity. Qed.

(** A (2, 3, 1) volume with two channels, re-expressed where the first
    voxel axis runs against the second world axis and the second voxel
    axis along the first. *)
Example reorient_volume :
  reorient (canonical 3)
    [ {| world_axis := 1; reversed := true |};
      {| world_axis := 0; reversed := false |};
      {| world_axis := 2; reversed := false |} ] 3
    (mk_ndarray [2; 3; 1; 2] [1; 2; 3; 4; 5; 6; 7; 8; 9; 10; 11; 12])
  = Ok (mk_ndarray [3; 2; 1; 2] [5; 6; 11; 12; 3; 4; 9; 10; 1; 2; 7; 8]).
Proof. reflexivity. Qed.

Example flip_label_map_once :
  flip_label_map [0; 1; 2; 3; 4; 5; 6]%Z 3 0 (mk_ndarray [2; 2] [3; 5; 0; 6]%Z)
  = mk_ndarray [2; 2] [0; 4; 5; 3]%Z.
Proof. reflexivity. Qed.

(** Three calls on the disk with a label map the model refuses, from a
    state of the random source that draws it first. *)
Example calls_after_a_failure :
  fst (fst (@generate_brains Fixture.types Fixture.mixed 3 Fixture.mixed_object 1))
  = [ Raise (External "label map shape incompatible with the model input");
      Raise StopIteration;
      Raise StopIteration ].
Proof. vm_compute; reflexivity. Qed.

(** ** The error monad *)

Lemma bind_ok_inv {A B} (c : result A) (k : A -> result B) (b : B) :
  bind c k = Ok b -> exists a, c = Ok a /\ k a = Ok b.
Proof. destruct c as [a | e]; simpl; intros H; [eauto | discriminate]. Qed.

Lemma assert_ok_inv (cond : bool) (msg : string) (u : unit) :
  assert cond msg = Ok u -> cond = true.
Proof. destruct cond; simpl; [reflexivity | discriminate]. Qed.

(** Split a successful chain of binds into its successful steps. *)
Ltac invert_binds H :=
  repeat match type of H with
         | bind _ _ = Ok _ =>
             let x := fresh "x" in
             let E := fresh "E" in
             apply bind_ok_inv in H; destruct H as (x & E & H)
         end.

Lemma shape_eqb_true s t : shape_eqb s t = true <-> s = t.
Proof. unfold shape_eqb; destruct (list_eq_dec Nat.eq_dec s t); split; congruence. Qed.

Lemma list_Z_eqb_true l m : list_Z_eqb l m = true <-> l = m.
Proof. unfold list_Z_eqb; destruct (list_eq_dec Z.eq_dec l m); split; congruence. Qed.

(** ** Sorted distinct values *)

Lemma in_insert_unique x v l : In v (insert_unique x l) <-> v = x \/ In v l.
Proof.
  induction l as [| y l IH]; simpl.
  - intuition.
  - destruct (Z.ltb_spec x y) as [Hlt | Hge].
    + simpl; intuition.
    + destruct (Z.eqb_spec x y) as [-> | Hne].
      * simpl; intuition.
      * simpl; rewrite IH; intuition.
Qed.

Lemma in_sorted_unique v l : In v (sorted_unique l) <-> In v l.
Proof.
  induction l as [| x l IH]; simpl.
  - reflexivity.
  - rewrite in_insert_unique, IH; intuition.
Qed.

Lemma sorted_unique_range s n :
  sorted_unique (map Z.of_nat (seq s n)) = map Z.of_nat (seq s n).
Proof.
  revert s; induction n as [| n IH]; intros s.
  - reflexivity.
  - cbn [seq map sorted_unique fold_right].
    fold (sorted_unique (map Z.of_nat (seq (S s) n))); rewrite IH.
    destruct n as [| n]; cbn [seq map insert_unique].
    + reflexivity.
    + destruct (Z.ltb_spec (Z.of_nat s) (Z.of_nat (S s))); [reflexivity | lia].
Qed.

Lemma in_range v K : In v (map Z.of_nat (seq 0 K)) <-> (0 <= v < Z.of_nat K)%Z.
Proof.
  rewrite in_map_iff; split.
  - intros (i & <- & Hi); apply in_seq in Hi; lia.
  - intros H; exists (Z.to_nat v); split; [lia | apply in_seq; lia].
Qed.


(** ** The constructor *)

Section Constructor.
Context {T : PyTypes} {C : Collaborators}.

(** What a successful [init_config] did, step by step. *)
Lemma init_config_inv (a : Args.t) (cfg : Config) :
  init_config a = Ok cfg ->
  exists paths first info labels,
    init_data_files a = Ok paths /\
    list_first (fst paths) = Ok first /\
    get_volume_info first np_eye4 = Ok info /\
    init_generation_labels a = Ok labels /\
    init_generation_classes (Args.generation_classes a) labels
      = Ok (generation_classes cfg) /\
    match Args.n_neutral_labels a with
    | Some n => n_neutral_labels cfg = n
    | None => exists d, shape0 labels = Ok d /\ n_neutral_labels cfg = Z.of_nat d
    end /\
    labels_paths cfg = fst paths /\
    images_paths cfg = snd paths /\
    aff cfg = vi_aff info /\
    n_dims cfg = vi_n_dims info /\
    generation_labels cfg = labels /\
    batchsize cfg = Args.batchsize a.
Proof.
  unfold init_config; intros H; invert_binds H.
  injection H as <-; simpl.
  exists x, x0, x1, x2; repeat split; try assumption.
  destruct (Args.n_neutral_labels a) as [n |].
  - injection E3 as <-; reflexivity.
  - invert_binds E3; injection E3 as <-; eauto.
Qed.

Lemma init_inv (a : Args.t) (self : BrainGenerator) :
  __init__ a = Ok self ->
  init_config a = Ok (config self) /\
  _build_labels_to_image_model (config self)
    = Ok (labels_to_image_model_ self, model_output_shape self) /\
  _build_model_inputs_generator (config self) = Ok (model_inputs_generator self) /\
  brain_generator self = Suspended.
Proof.
  unfold __init__; intros H; invert_binds H.
  injection H as <-; simpl.
  destruct x0; auto.
Qed.

End Constructor.

Section ConstructorChecks.
Context {T : PyTypes} {C : Collaborators}.

Lemma default_classes_inv (labels classes : ndarray Z) :
  init_generation_classes None labels = Ok classes ->
  exists n, shape0 labels = Ok n /\ classes = np_arange (Z.of_nat n).
Proof.
  simpl; intros H; invert_binds H; injection H as <-; eauto.
Qed.

(** What the class map passed when it was supplied. *)
Lemma supplied_classes_inv (arg : or_path (ndarray Z)) (labels classes : ndarray Z) :
  init_generation_classes (Some arg) labels = Ok classes ->
  load_array_if_path np_load arg = Ok classes /\
  shape classes = shape labels /\
  exists m, np_max (np_unique classes) = Ok m /\
            np_array_equal (np_unique classes)
              (np_arange (scalar_plus_int numpy_2 (dtype (np_unique classes)) m 1))
            = true.
Proof.
  simpl; intros H; invert_binds H; injection H as <-.
  apply assert_ok_inv in E0, E2.
  apply shape_eqb_true in E0; eauto.
Qed.

Lemma np_array_equal_data (a b : ndarray Z) :
  np_array_equal a b = true -> data a = data b.
Proof.
  unfold np_array_equal; intros H; apply andb_prop in H as [_ H].
  now apply list_Z_eqb_true.
Qed.

(** A class array that passes the check holds exactly the values
    [0 .. K-1], each at least once. *)
Lemma contiguous_classes (classes : ndarray Z) (m next : Z) :
  np_max (np_unique classes) = Ok m ->
  np_array_equal (np_unique classes) (np_arange next) = true ->
  exists K, 0 < K /\
    data (np_unique classes) = map Z.of_nat (seq 0 K) /\
    forall v, In v (data classes) <-> (0 <= v < Z.of_nat K)%Z.
Proof.
  intros Hmax Heq; apply np_array_equal_data in Heq.
  exists (Z.to_nat next); split; [| split].
  - unfold np_max in Hmax; rewrite Heq in Hmax; simpl in Hmax.
    destruct (Z.to_nat next); [discriminate | lia].
  - exact Heq.
  - intros v; rewrite <- in_range, <- in_sorted_unique.
    simpl in Heq; rewrite Heq; reflexivity.
Qed.

Lemma put_back_config_irrelevant (c1 c2 : Config) image target range li lt :
  aff c1 = aff c2 -> n_dims c1 = n_dims c2 ->
  put_back_in_native_space c1 image target range li lt
  = put_back_in_native_space c2 image target range li lt.
Proof.
  intros Ha Hn; revert li lt; induction range as [| i range IH]; intros li lt; simpl.
  - reflexivity.
  - rewrite Ha, Hn.
    destruct (getitem image i) as [image_i |]; simpl; [| reflexivity].
    destruct (align_volume_to_ref image_i np_eye4 (aff c2) (n_dims c2)); simpl; [| reflexivity].
    destruct (getitem target i) as [target_i |]; simpl; [| reflexivity].
    destruct (align_volume_to_ref target_i np_eye4 (aff c2) (n_dims c2)); simpl; [| reflexivity].
    apply IH.
Qed.

(** A call reads the configuration only through [batchsize], [aff] and
    [n_dims]. *)
Lemma generate_brain_reads (self1 self2 : BrainGenerator) (w : world) :
  batchsize self1 = batchsize self2 ->
  aff self1 = aff self2 ->
  n_dims self1 = n_dims self2 ->
  labels_to_image_model_ self1 = labels_to_image_model_ self2 ->
  model_inputs_generator self1 = model_inputs_generator self2 ->
  brain_generator self1 = brain_generator self2 ->
  fst (fst (generate_brain self1 w)) = fst (fst (generate_brain self2 w)) /\
  snd (generate_brain self1 w) = snd (generate_brain self2 w).
Proof.
  intros Hb Ha Hn Hm Hi Hg.
  unfold generate_brain, next_brain_generator.
  rewrite Hm, Hi, Hg.
  destruct (brain_generator self2); [| split; reflexivity].
  destruct (next_model_inputs (model_inputs_generator self2) w) as [[[mi | e] g] w1];
    [| split; reflexivity].
  destruct (predict (labels_to_image_model_ self2) mi w1) as [[[image target] | e] w2];
    [| split; reflexivity].
  cbn [fst snd with_generators config].
  rewrite Hb, (put_back_config_irrelevant self1 self2) by assumption.
  split; reflexivity.
Qed.

End ConstructorChecks.

(** ** Claims about construction *)

Section ConstructionClaims.
Context {T : PyTypes} {C : Collaborators}.

(** C3.  A supplied [generation_classes] lets construction succeed only
    if its sorted distinct values are exactly [0, ..., K-1] for some
    [K >= 1]; with a missing value below one of its values, or a
    negative value, [__init__] raises; and a later [generate_brain]
    call reads nothing of the class map: two objects that differ only
    in configuration attributes other than [batchsize], [aff] and
    [n_dims] answer a call alike.  So the check is made at setup and
    never per batch. *)
Theorem generation_classes_contiguous_or_rejected :
  (forall (a : Args.t) (self : BrainGenerator) (arg : or_path (ndarray Z)),
      __init__ a = Ok self ->
      Args.generation_classes a = Some arg ->
      exists K, 0 < K /\
        data (np_unique (generation_classes self)) = map Z.of_nat (seq 0 K) /\
        forall v, In v (data (generation_classes self)) <-> (0 <= v < Z.of_nat K)%Z) /\
  (forall (a : Args.t) (arg : or_path (ndarray Z)) (classes : ndarray Z) (x : Z),
      Args.generation_classes a = Some arg ->
      load_array_if_path np_load arg = Ok classes ->
      In x (data classes) ->
      (x < 0)%Z \/ (exists v, (0 <= v < x)%Z /\ ~ In v (data classes)) ->
      exists e, __init__ a = Raise e) /\
  (forall (self1 self2 : BrainGenerator) (w : world),
      batchsize self1 = batchsize self2 ->
      aff self1 = aff self2 ->
      n_dims self1 = n_dims self2 ->
      labels_to_image_model_ self1 = labels_to_image_model_ self2 ->
      model_inputs_generator self1 = model_inputs_generator self2 ->
      brain_generator self1 = brain_generator self2 ->
      fst (fst (generate_brain self1 w)) = fst (fst (generate_brain self2 w)) /\
      snd (generate_brain self1 w) = snd (generate_brain self2 w)).
Proof.
  assert (Hok : forall a self arg,
             __init__ a = Ok self -> Args.generation_classes a = Some arg ->
             load_array_if_path np_load arg = Ok (generation_classes self) /\
             exists K, 0 < K /\
               data (np_unique (generation_classes self)) = map Z.of_nat (seq 0 K) /\
               forall v, In v (data (generation_classes self)) <-> (0 <= v < Z.of_nat K)%Z).
  { intros a self arg Hinit Harg.
    apply init_inv in Hinit as (Hcfg & _).
    apply init_config_inv in Hcfg as (paths & first & info & labels & _ & _ & _ & _ & Hcls & _).
    rewrite Harg in Hcls.
    apply supplied_classes_inv in Hcls as (Hload & _ & m & Hmax & Heq).
    split; [assumption |].
    eapply contiguous_classes; eassumption. }
  split; [| split].
  - intros a self arg Hinit Harg; now destruct (Hok a self arg Hinit Harg).
  - intros a arg classes x Harg Hload Hx Hbad.
    destruct (__init__ a) as [self | e] eqn:Hinit; [exfalso | eauto].
    destruct (Hok a self arg Hinit Harg) as (Hload' & K & _ & _ & Hin).
    rewrite Hload in Hload'; injection Hload' as ->.
    pose proof (proj1 (Hin x) Hx) as Hxr.
    destruct Hbad as [Hneg | (v & Hv & Hnot)]; [lia |].
    apply Hnot, Hin; lia.
  - apply generate_brain_reads.
Qed.

(** C6.  With [images_dir] given, and both folders listed, a different
    number of images and label maps makes [__init__] raise the
    count-mismatch assertion; with the same number the data-file block
    returns both listings, and they are the ones a constructed object
    holds. *)
Theorem images_count_checked (a : Args.t) (d : string) (lp ip : list string) :
  Args.images_dir a = Some d ->
  list_images_in_folder (Args.labels_dir a) = Ok lp ->
  list_images_in_folder d = Ok ip ->
  (length lp <> length ip ->
   __init__ a = Raise (AssertionError "Different number of images and segmentations")) /\
  (length lp = length ip ->
   init_data_files a = Ok (lp, Some ip) /\
   forall self, __init__ a = Ok self ->
                labels_paths self = lp /\ images_paths self = Some ip).
Proof.
  intros Hdir Hlp Hip.
  assert (Hfiles : init_data_files a
                   = (assert (length lp =? length ip)
                        "Different number of images and segmentations" ;;;
                      Ok (lp, Some ip))).
  { unfold init_data_files; rewrite Hlp; simpl; rewrite Hdir, Hip; reflexivity. }
  split; intros Hlen.
  - unfold __init__, init_config; rewrite Hfiles.
    apply Nat.eqb_neq in Hlen; rewrite Hlen; reflexivity.
  - assert (Hfiles' : init_data_files a = Ok (lp, Some ip)).
    { rewrite Hfiles; apply Nat.eqb_eq in Hlen; rewrite Hlen; reflexivity. }
    split; [assumption |].
    intros self Hinit.
    apply init_inv in Hinit as (Hcfg & _).
    apply init_config_inv in Hcfg
      as (paths & first & info & labels & Hp & _ & _ & _ & _ & _ & Hl & Hi & _).
    rewrite Hfiles' in Hp; injection Hp as <-.
    split; assumption.
Qed.

(** C7.  When [generation_classes] is supplied, a constructed object has
    a class map of the shape of its generation labels; and when the
    loaded class map and the generation labels differ in shape, the
    class-map block raises the assertion that names the two arrays, and
    [__init__] raises. *)
Theorem generation_classes_shape_checked :
  (forall (a : Args.t) (self : BrainGenerator) (arg : or_path (ndarray Z)),
      __init__ a = Ok self ->
      Args.generation_classes a = Some arg ->
      shape (generation_classes self) = shape (generation_labels self)) /\
  (forall (a : Args.t) (arg : or_path (ndarray Z)) (classes labels : ndarray Z),
      Args.generation_classes a = Some arg ->
      load_array_if_path np_load arg = Ok classes ->
      init_generation_labels a = Ok labels ->
      shape classes <> shape labels ->
      init_generation_classes (Some arg) labels
      = Raise (AssertionError
          "if provided, generation labels should have the same shape as generation_labels") /\
      exists e, __init__ a = Raise e).
Proof.
  split.
  - intros a self arg Hinit Harg.
    apply init_inv in Hinit as (Hcfg & _).
    apply init_config_inv in Hcfg
      as (paths & first & info & labels & _ & _ & _ & _ & Hcls & _ & _ & _ & _ & _ & Hl & _).
    rewrite Harg in Hcls.
    apply supplied_classes_inv in Hcls as (_ & Hshape & _).
    now rewrite Hl.
  - intros a arg classes labels Harg Hload Hlabels Hne; split.
    + simpl; rewrite Hload; simpl.
      destruct (shape_eqb (shape classes) (shape labels)) eqn:E; [| reflexivity].
      now apply shape_eqb_true in E.
    + destruct (__init__ a) as [self | e] eqn:Hinit; [exfalso | eauto].
      apply init_inv in Hinit as (Hcfg & _).
      apply init_config_inv in Hcfg
        as (paths & first & info & labels' & _ & _ & _ & Hl' & Hcls & _).
      rewrite Hlabels in Hl'; injection Hl' as <-.
      rewrite Harg in Hcls.
      apply supplied_classes_inv in Hcls as (Hload' & Hshape & _).
      rewrite Hload in Hload'; injection Hload' as ->.
      contradiction.
Qed.


End ConstructionClaims.

Section NeutralLabels.
Context {T : PyTypes} {C : Collaborators}.






End NeutralLabels.

(** ** The generation loop *)

Lemma Forall2_nth_error {A B} (R : A -> B -> Prop) (l : list A) (l' : list B) i x :
  Forall2 R l l' -> nth_error l i = Some x ->
  exists y, nth_error l' i = Some y /\ R x y.
Proof.
  intros H; revert i; induction H as [| a b l l' Hab _ IH]; intros i Hi.
  - destruct i; discriminate.
  - destruct i as [| i]; simpl in *.
    + injection Hi as <-; eauto.
    + now apply IH.
Qed.

Lemma nth_error_py_range (n : Z) (i : nat) :
  i < Z.to_nat n -> nth_error (py_range n) i = Some i.
Proof.
  intros H; unfold py_range; rewrite nth_error_seq.
  destruct (Nat.ltb_spec i (Z.to_nat n)); [reflexivity | lia].
Qed.

Section Generation.
Context {T : PyTypes} {C : Collaborators}.

Lemma put_back_spec (cfg : Config) image target range li lt li' lt' :
  put_back_in_native_space cfg image target range li lt = Ok (li', lt') ->
  exists ims tgs,
    li' = li ++ ims /\ lt' = lt ++ tgs /\
    Forall2 (realigned (aff cfg) (n_dims cfg) image) range ims /\
    Forall2 (realigned (aff cfg) (n_dims cfg) target) range tgs.
Proof.
  revert li lt; induction range as [| i range IH]; intros li lt H; simpl in H.
  - injection H as <- <-; exists [], []; rewrite !app_nil_r; auto.
  - invert_binds H.
    apply IH in H as (ims & tgs & -> & -> & Him & Htg).
    exists (x0 :: ims), (x2 :: tgs); rewrite <- !app_assoc; simpl.
    repeat split; constructor; try assumption; eexists; eauto.
Qed.

Lemma next_brain_generator_ok_inv (self : BrainGenerator) w batch self' w' :
  next_brain_generator self w = (Ok batch, self', w') ->
  brain_generator self = Suspended /\
  exists bundle inputs w1,
    next_model_inputs (model_inputs_generator self) w = (Ok bundle, inputs, w1) /\
    predict (labels_to_image_model_ self) bundle w1 = (Ok batch, w') /\
    self' = with_generators inputs Suspended self.
Proof.
  unfold next_brain_generator; intros H.
  destruct (brain_generator self); [| discriminate].
  destruct (next_model_inputs (model_inputs_generator self) w) as [[[mi | e] g] w1];
    [| discriminate].
  destruct (predict (labels_to_image_model_ self) mi w1) as [[b | e] w2] eqn:Hp;
    [| discriminate].
  injection H as <- <- <-.
  split; [reflexivity |]; exists mi, g, w1; auto.
Qed.

Lemma generate_brain_ok_inv (self : BrainGenerator) w image target self' w' :
  generate_brain self w = (Ok (image, target), self', w') ->
  exists canon_image canon_target list_images list_targets,
    next_brain_generator self w = (Ok (canon_image, canon_target), self', w') /\
    put_back_in_native_space self' canon_image canon_target
      (py_range (batchsize self')) [] [] = Ok (list_images, list_targets) /\
    np_stack list_images = Ok image /\
    np_stack list_targets = Ok target.
Proof.
  unfold generate_brain; intros H.
  destruct (next_brain_generator self w) as [[[[ci ct] | e] s1] w1]; [| discriminate].
  injection H as H <- <-.
  invert_binds H; destruct x as [li lt]; simpl in *.
  injection H as <- <-.
  exists ci, ct, li, lt; auto.
Qed.

(** The generator step only assigns the two generator attributes. *)
Lemma next_brain_generator_frame (self : BrainGenerator) w r self' w' :
  next_brain_generator self w = (r, self', w') ->
  self' = with_generators (model_inputs_generator self') (brain_generator self') self.
Proof.
  unfold next_brain_generator; intros H.
  destruct (brain_generator self) eqn:Hg.
  - destruct (next_model_inputs (model_inputs_generator self) w) as [[[mi | e] g] w1].
    + destruct (predict (labels_to_image_model_ self) mi w1) as [[b | e] w2];
        injection H as <- <- <-; reflexivity.
    + injection H as <- <- <-; reflexivity.
  - injection H as <- <- <-; destruct self; simpl in *; now rewrite Hg.
Qed.

Lemma generate_brain_next (self : BrainGenerator) w r self' w' :
  generate_brain self w = (r, self', w') ->
  exists r0, next_brain_generator self w = (r0, self', w') /\
             (forall e, r0 = Raise e -> r = Raise e).
Proof.
  unfold generate_brain; intros H.
  destruct (next_brain_generator self w) as [[[[ci ct] | e] s1] w1];
    injection H as <- <- <-; eexists; split; try reflexivity; congruence.
Qed.

Lemma generate_brain_frame (self : BrainGenerator) w r self' w' :
  generate_brain self w = (r, self', w') ->
  self' = with_generators (model_inputs_generator self') (brain_generator self') self.
Proof.
  intros H; apply generate_brain_next in H as (r0 & H & _).
  eapply next_brain_generator_frame; eassumption.
Qed.

(** Every object a program holds has the configuration, the model and
    the recorded output shape of the object that [__init__] returned. *)
Lemma reachable_inv (a : Args.t) (self : BrainGenerator) :
  reachable a self ->
  exists self0, __init__ a = Ok self0 /\
    config self = config self0 /\
    labels_to_image_model_ self = labels_to_image_model_ self0 /\
    model_output_shape self = model_output_shape self0.
Proof.
  induction 1 as [self Hinit | self w r self' w' _ IH Hcall].
  - exists self; auto.
  - destruct IH as (self0 & Hinit & Hc & Hm & Ho).
    apply generate_brain_frame in Hcall; rewrite Hcall; simpl.
    exists self0; auto.
Qed.

Lemma init_data_files_labels (a : Args.t) paths :
  init_data_files a = Ok paths ->
  list_images_in_folder (Args.labels_dir a) = Ok (fst paths).
Proof.
  unfold init_data_files; intros H; invert_binds H.
  destruct (Args.images_dir a).
  - invert_binds H; injection H as <-; assumption.
  - injection H as <-; assumption.
Qed.

End Generation.

(** ** Claims about [generate_brain] *)

Section GenerationClaims.
Context {T : PyTypes} {C : Collaborators}.

Lemma put_back_complete (cfg : Config) image target range :
  forall ims tgs li lt,
    Forall2 (realigned (aff cfg) (n_dims cfg) image) range ims ->
    Forall2 (realigned (aff cfg) (n_dims cfg) target) range tgs ->
    put_back_in_native_space cfg image target range li lt
    = Ok (li ++ ims, lt ++ tgs).
Proof.
  induction range as [| i range IH]; intros ims tgs li lt Him Htg.
  - inversion Him; inversion Htg; subst; simpl; now rewrite !app_nil_r.
  - inversion Him as [| ? im ? ims' (si & Hgi & Hai) Him']; subst.
    inversion Htg as [| ? tg ? tgs' (st & Hgt & Hat) Htg']; subst.
    simpl; rewrite Hgi; simpl; rewrite Hai; simpl; rewrite Hgt; simpl; rewrite Hat; simpl.
    rewrite (IH ims' tgs' _ _ Him' Htg'), <- !app_assoc; reflexivity.
Qed.

(** C2.  An object built from the arguments [a] holds, at every later
    time, the affine and the dimension count that [get_volume_info]
    read from the first listed label map.  A call returns the batches
    [image] and [target] exactly when the generation loop yields a
    canonical image batch and a canonical target batch, every sample
    below [batchsize] of either put through [align_volume_to_ref] with
    the identity affine as source, that affine as reference and that
    dimension count gives a volume, and [image] and [target] are the
    stacks of these volumes, in the order of the samples. *)
Theorem image_and_target_realigned_alike (a : Args.t) (self : BrainGenerator) :
  reachable a self ->
  exists paths first info,
    list_images_in_folder (Args.labels_dir a) = Ok paths /\
    list_first paths = Ok first /\
    get_volume_info first np_eye4 = Ok info /\
    aff self = vi_aff info /\
    n_dims self = vi_n_dims info /\
    forall w image target self' w',
      generate_brain self w = (Ok (image, target), self', w') <->
      exists canon_image canon_target list_images list_targets,
        next_brain_generator self w = (Ok (canon_image, canon_target), self', w') /\
        np_stack list_images = Ok image /\
        np_stack list_targets = Ok target /\
        Forall2 (realigned (vi_aff info) (vi_n_dims info) canon_image)
          (py_range (batchsize self)) list_images /\
        Forall2 (realigned (vi_aff info) (vi_n_dims info) canon_target)
          (py_range (batchsize self)) list_targets.
Proof.
  intros Hreach.
  apply reachable_inv in Hreach as (self0 & Hinit & Hcfg & _).
  apply init_inv in Hinit as (Hinit & _).
  apply init_config_inv in Hinit
    as (paths & first & info & labels & Hfiles & Hfirst & Hinfo & _ & _ & _ & _ & _
        & Haff & Hdims & _).
  apply init_data_files_labels in Hfiles.
  exists (fst paths), first, info.
  rewrite Hcfg, Haff, Hdims; repeat split; try assumption.
  - intros Hcall.
    pose proof (generate_brain_frame _ _ _ _ _ Hcall) as Hframe.
    apply generate_brain_ok_inv in Hcall
      as (ci & ct & li & lt & Hnext & Hloop & Hsi & Hst).
    apply put_back_spec in Hloop as (ims & tgs & -> & -> & Him & Htg).
    assert (Hc : config self' = config self0) by (rewrite Hframe; simpl; exact Hcfg).
    rewrite Hc, Haff, Hdims in Him, Htg.
    exists ci, ct, ims, tgs; simpl in *; auto.
  - intros (ci & ct & ims & tgs & Hnext & Hsi & Hst & Him & Htg).
    pose proof (next_brain_generator_frame _ _ _ _ _ Hnext) as Hframe.
    assert (Hc : config self' = config self0) by (rewrite Hframe; simpl; exact Hcfg).
    unfold generate_brain; rewrite Hnext, Hc.
    rewrite <- Haff, <- Hdims in Him, Htg.
    rewrite (put_back_complete _ _ _ _ ims tgs [] [] Him Htg); simpl.
    rewrite Hsi; simpl; rewrite Hst; reflexivity.
Qed.

(** C9, as the code has it.  A call leaves the configuration, the model
    and the recorded output shape as they were.  On a finished
    generator it raises [StopIteration] and changes nothing.  On a
    suspended generator: when the sampler raises, or the synthesizer
    raises on the bundle drawn, the call raises that exception and
    leaves the generator finished; when both return, the generator is
    left suspended whatever the call then does, so a call that fails
    while re-orienting or stacking leaves the generator suspended.
    Once the generator is finished every call raises [StopIteration]. *)
Theorem generate_brain_frame_and_failure (self : BrainGenerator) (w : world)
    (r : result (ndarray scalar * ndarray scalar)) (self' : BrainGenerator) (w' : world) :
  generate_brain self w = (r, self', w') ->
  (config self' = config self /\
   labels_to_image_model_ self' = labels_to_image_model_ self /\
   model_output_shape self' = model_output_shape self) /\
  (forall e, r = Raise e ->
     (brain_generator self = Finished /\ self' = self /\ w' = w /\ e = StopIteration) \/
     (brain_generator self = Suspended /\ brain_generator self' = Finished) \/
     (brain_generator self = Suspended /\ brain_generator self' = Suspended /\
      exists batch, next_brain_generator self w = (Ok batch, self', w'))) /\
  (brain_generator self = Suspended ->
   (forall e inputs w1,
       next_model_inputs (model_inputs_generator self) w = (Raise e, inputs, w1) ->
       r = Raise (generator_raise e) /\
       self' = with_generators inputs Finished self /\ w' = w1) /\
   (forall bundle inputs w1 e w2,
       next_model_inputs (model_inputs_generator self) w = (Ok bundle, inputs, w1) ->
       predict (labels_to_image_model_ self) bundle w1 = (Raise e, w2) ->
       r = Raise (generator_raise e) /\
       self' = with_generators inputs Finished self /\ w' = w2) /\
   (forall bundle inputs w1 batch w2,
       next_model_inputs (model_inputs_generator self) w = (Ok bundle, inputs, w1) ->
       predict (labels_to_image_model_ self) bundle w1 = (Ok batch, w2) ->
       self' = with_generators inputs Suspended self /\ w' = w2 /\
       brain_generator self' = Suspended)) /\
  (brain_generator self' = Finished ->
   forall w2, generate_brain self' w2 = (Raise StopIteration, self', w2)).
Proof.
  intros Hcall; split; [| split; [| split]].
  - apply generate_brain_frame in Hcall; rewrite Hcall; simpl; auto.
  - intros e ->.
    unfold generate_brain, next_brain_generator in *.
    destruct (brain_generator self) eqn:Hg.
    + right.
      destruct (next_model_inputs (model_inputs_generator self) w) as [[[mi | e0] g] w1].
      * destruct (predict (labels_to_image_model_ self) mi w1) as [[[ci ct] | e0] w2].
        -- injection Hcall as _ <- <-; right; simpl; eauto.
        -- injection Hcall as _ <- <-; left; auto.
      * injection Hcall as _ <- <-; left; auto.
    + left; injection Hcall as <- <- <-; auto.
  - intros Hs; unfold generate_brain, next_brain_generator in Hcall.
    rewrite Hs in Hcall.
    split; [| split].
    + intros e inputs w1 Hdraw; rewrite Hdraw in Hcall.
      injection Hcall as <- <- <-; auto.
    + intros bundle inputs w1 e w2 Hdraw Hpred; rewrite Hdraw, Hpred in Hcall.
      injection Hcall as <- <- <-; auto.
    + intros bundle inputs w1 [ci ct] w2 Hdraw Hpred; rewrite Hdraw, Hpred in Hcall.
      injection Hcall as _ <- <-; auto.
  - intros Hfin w2; unfold generate_brain, next_brain_generator; now rewrite Hfin.
Qed.

End GenerationClaims.

Section OneDrawOneBatch.
Context {T : PyTypes} {C : Collaborators}.

Lemma generate_brains_produce (I : inputs_generator -> world -> Prop)
    (c : Config) (m : keras_model) (o : list (option nat)) (n : nat) :
  forall g w,
    (forall self, config self = c -> labels_to_image_model_ self = m ->
                  always_produces self I) ->
    I g w ->
    exists batches g' w',
      generate_brains n
        {| config := c; labels_to_image_model_ := m; model_output_shape := o;
           model_inputs_generator := g; brain_generator := Suspended |} w
      = (map Ok batches,
         {| config := c; labels_to_image_model_ := m; model_output_shape := o;
            model_inputs_generator := g'; brain_generator := Suspended |}, w') /\
      length batches = n /\ I g' w'.
Proof.
  induction n as [| n IH]; intros g w Hprod HI.
  - exists [], g, w; auto.
  - set (self := {| config := c; labels_to_image_model_ := m; model_output_shape := o;
                    model_inputs_generator := g; brain_generator := Suspended |}).
    destruct (Hprod self eq_refl eq_refl g w HI)
      as (bundle & g1 & w1 & image & target & w2 & lists & image' & target'
          & Hnext & Hpred & Hloop & Hsi & Hst & HI').
    destruct (IH g1 w2 Hprod HI') as (batches & g' & w' & Hrest & Hlen & HI'').
    exists ((image', target') :: batches), g', w'.
    split; [| split; [simpl; lia | assumption]].
    cbn [generate_brains].
    assert (Hcall : generate_brain self w
                    = (Ok (image', target'), with_generators g1 Suspended self, w2)).
    { unfold generate_brain, next_brain_generator, self.
      cbn [brain_generator model_inputs_generator labels_to_image_model_].
      rewrite Hnext.
      unfold self in Hpred; cbn [labels_to_image_model_] in Hpred; rewrite Hpred.
      unfold self in Hloop; cbn [config] in Hloop.
      cbn [config with_generators].
      rewrite Hloop; cbn [bind]; rewrite Hsi; cbn [bind]; rewrite Hst; reflexivity. }
    rewrite Hcall; unfold with_generators, self; cbn [config labels_to_image_model_ model_output_shape].
    rewrite Hrest; reflexivity.
Qed.

(** C4, as the code has it.  A call that returns a batch drew exactly
    one bundle from the sampler and ran [predict] exactly once, on that
    bundle: the sampler and the random source are left as one draw
    followed by one [predict] leave them, and the generator is left
    suspended.  With the calls counted: a call on a suspended generator
    makes exactly one draw and at most one [predict], exactly one when
    it returns a batch; a call on a finished generator makes neither
    and raises [StopIteration].  The generator finishes only when the
    sampler or the synthesizer raises; and from a suspended generator,
    when they do not raise and the batches can be put back and
    stacked, any number of calls return that number of batches and
    leave the generator suspended. *)
Theorem one_draw_one_predict_per_batch :
  (forall (self : BrainGenerator) w image target self' w',
      generate_brain self w = (Ok (image, target), self', w') ->
      exists bundle inputs w1 batch,
        next_model_inputs (model_inputs_generator self) w = (Ok bundle, inputs, w1) /\
        predict (labels_to_image_model_ self) bundle w1 = (Ok batch, w') /\
        model_inputs_generator self' = inputs /\
        brain_generator self' = Suspended) /\
  (forall (self : BrainGenerator) (w : @world T C) draws calls r self' w' draws' calls',
      @generate_brain T (Counting.collaborators C) self (w, draws, calls)
      = (r, self', (w', draws', calls')) ->
      draws' <= S draws /\ calls' <= S calls /\
      (is_ok r = true -> draws' = S draws /\ calls' = S calls) /\
      (brain_generator self = Suspended -> draws' = S draws) /\
      (brain_generator self = Finished ->
       draws' = draws /\ calls' = calls /\ r = Raise StopIteration /\
       self' = self /\ w' = w)) /\
  (forall (self : BrainGenerator) w r self' w',
      brain_generator self = Suspended ->
      generate_brain self w = (r, self', w') ->
      brain_generator self' = Finished ->
      exists e, r = Raise (generator_raise e) /\
        ((exists g w1, next_model_inputs (model_inputs_generator self) w = (Raise e, g, w1)) \/
         (exists bundle g w1,
            next_model_inputs (model_inputs_generator self) w = (Ok bundle, g, w1) /\
            predict (labels_to_image_model_ self) bundle w1 = (Raise e, w')))) /\
  (forall (I : inputs_generator -> world -> Prop) (self : BrainGenerator) w (n : nat),
      always_produces self I ->
      I (model_inputs_generator self) w ->
      brain_generator self = Suspended ->
      exists batches self' w',
        generate_brains n self w = (map Ok batches, self', w') /\
        length batches = n /\
        brain_generator self' = Suspended).
Proof.
  split; [| split; [| split]].
  - intros self w image target self' w' Hcall.
    apply generate_brain_ok_inv in Hcall as (ci & ct & li & lt & Hnext & _).
    apply next_brain_generator_ok_inv in Hnext
      as (_ & bundle & inputs & w1 & Hdraw & Hpred & ->).
    exists bundle, inputs, w1, (ci, ct); auto.
  - intros self w draws calls r self' w' draws' calls'.
    unfold generate_brain, next_brain_generator; simpl.
    destruct (brain_generator self).
    + destruct (next_model_inputs (model_inputs_generator self) w) as [[[mi | e] g] w1].
      * destruct (predict (labels_to_image_model_ self) mi w1) as [[[ci ct] | e] w2];
          intros H; injection H as <- <- <- <- <-;
          repeat split; auto; discriminate.
      * intros H; injection H as <- <- <- <- <-; repeat split; auto; discriminate.
    + intros H; injection H as <- <- <- <- <-; repeat split; auto; discriminate.
  - intros self w r self' w' Hs Hcall Hfin.
    unfold generate_brain, next_brain_generator in Hcall; rewrite Hs in Hcall.
    destruct (next_model_inputs (model_inputs_generator self) w) as [[[mi | e] g] w1].
    + destruct (predict (labels_to_image_model_ self) mi w1) as [[[ci ct] | e] w2] eqn:Hp.
      * injection Hcall as _ <- _; discriminate.
      * injection Hcall as <- _ <-; exists e; split; [reflexivity |].
        right; exists mi, g, w1; auto.
    + injection Hcall as <- _ _; exists e; split; [reflexivity |].
      left; eauto.
  - intros I self w n Hprod HI Hs.
    destruct self as [c m o g b]; simpl in *; subst b.
    destruct (generate_brains_produce I c m o n g w) as (batches & g' & w' & Hrun & Hlen & _).
    + intros self Hc Hm g0 w0 HI0.
      destruct (Hprod g0 w0 HI0)
        as (bundle & g1 & w1 & image & target & w2 & lists & image' & target' & H).
      exists bundle, g1, w1, image, target, w2, lists, image', target'.
      simpl in H; rewrite Hc, Hm; exact H.
    + assumption.
    + eexists _, _, _; repeat split; eauto.
Qed.

End OneDrawOneBatch.

(** ** Mirroring a buffer along an axis *)

Lemma chunks_map {A B} (f : A -> B) (m n : nat) (d : list A) :
  chunks m n (map f d) = map (map f) (chunks m n d).
Proof.
  revert d; induction n as [| n IH]; intros d; simpl.
  - reflexivity.
  - now rewrite firstn_map, skipn_map, IH.
Qed.

Lemma concat_chunks {A} (m n : nat) (d : list A) :
  length d = n * m -> concat (chunks m n d) = d.
Proof.
  revert d; induction n as [| n IH]; intros d H; simpl in *.
  - now destruct d.
  - rewrite IH; [apply firstn_skipn | rewrite length_skipn; lia].
Qed.

Lemma chunks_concat {A} (m : nat) (cs : list (list A)) :
  Forall (fun c => length c = m) cs -> chunks m (length cs) (concat cs) = cs.
Proof.
  induction 1 as [| c cs Hc _ IH]; simpl.
  - reflexivity.
  - rewrite firstn_app, skipn_app.
    replace (m - length c) with 0 by lia.
    rewrite (firstn_all2 c), (skipn_all2 c) by lia.
    rewrite firstn_O, skipn_O, app_nil_r; simpl; now rewrite IH.
Qed.

Lemma chunks_sizes {A} (m n : nat) (d : list A) :
  length d = n * m ->
  length (chunks m n d) = n /\ Forall (fun c => length c = m) (chunks m n d).
Proof.
  revert d; induction n as [| n IH]; intros d H; simpl in *.
  - auto.
  - destruct (IH (skipn m d)) as [Hl Hf]; [rewrite length_skipn; lia |].
    split; [now rewrite Hl |].
    constructor; [rewrite length_firstn; lia | assumption].
Qed.

Lemma length_concat_blocks {A} (m : nat) (cs : list (list A)) :
  Forall (fun c => length c = m) cs -> length (concat cs) = length cs * m.
Proof.
  induction 1 as [| c cs Hc _ IH]; simpl; [reflexivity |].
  rewrite length_app; lia.
Qed.

Lemma flip_data_map {A B} (f : A -> B) (s : list nat) :
  forall axis d, flip_data s axis (map f d) = map f (flip_data s axis d).
Proof.
  induction s as [| n s IH]; intros axis d; simpl.
  - reflexivity.
  - rewrite chunks_map; destruct axis as [| axis].
    + now rewrite <- map_rev, concat_map.
    + rewrite concat_map, !map_map; f_equal.
      apply map_ext; intros c; apply IH.
Qed.

(** Mirroring keeps the blocks of an axis, possibly mirrored themselves. *)
Lemma flip_data_blocks {A} (s : list nat) :
  forall axis (d : list A),
    length d = prod_shape s ->
    length (flip_data s axis d) = prod_shape s /\
    flip_data s axis (flip_data s axis d) = d.
Proof.
  induction s as [| n s IH]; intros axis d H; simpl in *.
  - auto.
  - destruct (chunks_sizes (prod_shape s) n d H) as [Hn Hf].
    destruct axis as [| axis].
    + assert (Hr : Forall (fun c => length c = prod_shape s)
                     (rev (chunks (prod_shape s) n d))).
      { apply Forall_rev; assumption. }
      split.
      * rewrite (length_concat_blocks _ _ Hr), length_rev, Hn; reflexivity.
      * pose proof (chunks_concat _ _ Hr) as Hcc.
        rewrite length_rev, Hn in Hcc; rewrite Hcc, rev_involutive.
        now apply concat_chunks.
    + assert (Hm : Forall (fun c => length c = prod_shape s)
                     (map (flip_data s axis) (chunks (prod_shape s) n d))).
      { apply Forall_map; eapply Forall_impl; [| exact Hf].
        intros c Hc; now apply IH. }
      split.
      * rewrite (length_concat_blocks _ _ Hm), length_map, Hn; reflexivity.
      * pose proof (chunks_concat _ _ Hm) as Hcc.
        rewrite length_map, Hn in Hcc; rewrite Hcc, map_map.
        rewrite <- (concat_chunks (prod_shape s) n d H) at 2; f_equal.
        rewrite <- (map_id (chunks (prod_shape s) n d)) at 2.
        apply map_ext_in; intros c Hc.
        rewrite Forall_forall in Hf; now apply IH, Hf.
Qed.

(** ** Exchanging left and right labels *)

Lemma lookup_fst_none v pairs :
  ~ In v (map fst pairs) -> lookup_fst v pairs = None.
Proof.
  induction pairs as [| [l r] pairs IH]; simpl; intros H; [reflexivity |].
  destruct (Z.eqb_spec v l) as [-> | _]; [tauto | apply IH; tauto].
Qed.

Lemma lookup_snd_none v pairs :
  ~ In v (map snd pairs) -> lookup_snd v pairs = None.
Proof.
  induction pairs as [| [l r] pairs IH]; simpl; intros H; [reflexivity |].
  destruct (Z.eqb_spec v r) as [-> | _]; [tauto | apply IH; tauto].
Qed.

Lemma lookup_fst_in v r pairs : lookup_fst v pairs = Some r -> In (v, r) pairs.
Proof.
  induction pairs as [| [l r'] pairs IH]; simpl; [discriminate |].
  destruct (Z.eqb_spec v l) as [-> | _]; intros H.
  - injection H as ->; auto.
  - auto.
Qed.

Lemma lookup_snd_in v l pairs : lookup_snd v pairs = Some l -> In (l, v) pairs.
Proof.
  induction pairs as [| [l' r] pairs IH]; simpl; [discriminate |].
  destruct (Z.eqb_spec v r) as [-> | _]; intros H.
  - injection H as ->; auto.
  - auto.
Qed.

Lemma lookup_fst_found l r pairs :
  NoDup (map fst pairs) -> In (l, r) pairs -> lookup_fst l pairs = Some r.
Proof.
  induction pairs as [| [l' r'] pairs IH]; simpl; [tauto |].
  intros Hnd [H | H].
  - injection H as -> ->; now rewrite Z.eqb_refl.
  - inversion Hnd as [| ? ? Hnot Hnd']; subst.
    destruct (Z.eqb_spec l l') as [-> | _]; [| auto].
    exfalso; apply Hnot; apply in_map_iff; exists (l', r); auto.
Qed.

Lemma lookup_snd_found l r pairs :
  NoDup (map snd pairs) -> In (l, r) pairs -> lookup_snd r pairs = Some l.
Proof.
  induction pairs as [| [l' r'] pairs IH]; simpl; [tauto |].
  intros Hnd [H | H].
  - injection H as -> ->; now rewrite Z.eqb_refl.
  - inversion Hnd as [| ? ? Hnot Hnd']; subst.
    destruct (Z.eqb_spec r r') as [-> | _]; [| auto].
    exfalso; apply Hnot; apply in_map_iff; exists (l, r'); auto.
Qed.

Lemma NoDup_combine_sides (l r : list Z) :
  NoDup (l ++ r) ->
  NoDup (map fst (combine l r)) /\ NoDup (map snd (combine l r)) /\
  forall v, In v (map fst (combine l r)) -> ~ In v (map snd (combine l r)).
Proof.
  intros H.
  assert (Hl : NoDup l) by (eapply NoDup_app_remove_r; eassumption).
  assert (Hr : NoDup r) by (eapply NoDup_app_remove_l; eassumption).
  repeat split.
  - clear H Hr; revert r; induction Hl as [| x l Hx _ IH]; intros r; simpl.
    + constructor.
    + destruct r as [| y r]; simpl; constructor; [| apply IH].
      intros Hin; apply in_map_iff in Hin as ([a b] & <- & Hin).
      apply Hx; eapply in_combine_l; eassumption.
  - clear H Hl; revert l; induction Hr as [| y r Hy _ IH]; intros l; simpl.
    + destruct l; constructor.
    + destruct l as [| x l]; simpl; constructor; [| apply IH].
      intros Hin; apply in_map_iff in Hin as ([a b] & <- & Hin).
      apply Hy; eapply in_combine_r; eassumption.
  - intros v Hf Hs.
    apply in_map_iff in Hf as ([a b] & <- & Hf).
    apply in_map_iff in Hs as ([a' b'] & Heq & Hs); simpl in *; subst b'.
    apply in_combine_l in Hf; apply in_combine_r in Hs.
    revert Hf Hs; clear -H; induction l as [| x l IH]; simpl in *; [tauto |].
    inversion H as [| ? ? Hx Hnd]; subst.
    intros [-> | Hf] Hs; [apply Hx; apply in_or_app; auto | auto].
Qed.

Lemma swap_left_right_involutive (labels : list Z) (n_neutral : nat) (v : Z) :
  NoDup (skipn n_neutral labels) ->
  swap_left_right labels n_neutral (swap_left_right labels n_neutral v) = v.
Proof.
  intros Hnd; unfold swap_left_right, left_right_pairs.
  set (sided := skipn n_neutral labels) in *.
  set (m := length sided / 2).
  rewrite <- (firstn_skipn m sided) in Hnd.
  destruct (NoDup_combine_sides _ _ Hnd) as (Hf & Hs & Hdisj).
  set (pairs := combine (firstn m sided) (skipn m sided)) in *.
  destruct (lookup_fst v pairs) as [r |] eqn:E1.
  - apply lookup_fst_in in E1.
    assert (Hr : In r (map snd pairs)) by (apply in_map_iff; exists (v, r); auto).
    rewrite lookup_fst_none by (intros Hin; exact (Hdisj r Hin Hr)).
    now rewrite (lookup_snd_found v r pairs Hs E1).
  - destruct (lookup_snd v pairs) as [l |] eqn:E2.
    + apply lookup_snd_in in E2.
      now rewrite (lookup_fst_found l v pairs Hf E2).
    + now rewrite E1, E2.
Qed.

(** C5.  For a label list whose sided labels (those after the neutral
    prefix) are distinct, and a label map whose buffer fits its shape,
    the deterministic left-right flip (mirror along the flip axis, then
    exchange each left label with its paired right label) applied twice
    along the same axis gives the label map back. *)
Theorem flip_label_map_twice (labels : list Z) (n_neutral flip_axis : nat)
    (label_map : ndarray Z) :
  NoDup (skipn n_neutral labels) ->
  well_formed label_map ->
  flip_label_map labels n_neutral flip_axis
    (flip_label_map labels n_neutral flip_axis label_map) = label_map.
Proof.
  intros Hnd Hwf; destruct label_map as [s d]; unfold well_formed in Hwf; simpl in Hwf.
  unfold flip_label_map, np_flip; simpl; f_equal.
  rewrite flip_data_map, map_map.
  rewrite (proj2 (flip_data_blocks s flip_axis d Hwf)).
  rewrite <- (map_id d) at 2; apply map_ext; intros v.
  now apply swap_left_right_involutive.
Qed.

(** ** Shapes *)

Lemma getitem_shape {A} (a b : ndarray A) (i : nat) :
  getitem a i = Ok b -> exists d, shape a = d :: shape b /\ i < d.
Proof.
  unfold getitem; destruct (shape a) as [| d s]; [discriminate |].
  destruct (Nat.ltb_spec i d) as [Hlt |]; [| discriminate].
  intros H; injection H as <-; simpl; eauto.
Qed.

Lemma np_stack_shape {A} (l : list (ndarray A)) (a : ndarray A) :
  np_stack l = Ok a -> exists x l', l = x :: l' /\ shape a = length l :: shape x.
Proof.
  unfold np_stack; destruct l as [| x l']; [discriminate |].
  destruct (forallb _ _); [| discriminate].
  intros H; injection H as <-; simpl; eauto.
Qed.

Lemma fold_flip_shape {A} (axes : list nat) (v : ndarray A) :
  shape (fold_left np_flip axes v) = shape v.
Proof.
  revert v; induction axes as [| k axes IH]; intros v; simpl; [reflexivity |].
  now rewrite IH.
Qed.

Lemma index_of_seq_inv k s n i : index_of k (seq s n) = Some i -> k = s + i.
Proof.
  revert s i; induction n as [| n IH]; intros s i; simpl; [discriminate |].
  destruct (Nat.eqb_spec k s) as [-> | _].
  - intros H; injection H as <-; lia.
  - destruct (index_of k (seq (S s) n)) as [j |] eqn:E; simpl; [| discriminate].
    intros H; injection H as <-; apply IH in E; lia.
Qed.

Lemma world_axes_canonical n : map world_axis (canonical n) = seq 0 n.
Proof.
  unfold canonical; rewrite map_map; simpl; apply map_id.
Qed.

Lemma matching_axes_canonical n ref axes :
  matching_axes (canonical n) ref = Some axes -> axes = map world_axis ref.
Proof.
  revert axes; induction ref as [| r ref IH]; intros axes; simpl.
  - intros H; now injection H as <-.
  - rewrite world_axes_canonical.
    destruct (index_of (world_axis r) (seq 0 n)) as [i |] eqn:E; [| discriminate].
    destruct (matching_axes (canonical n) ref) as [l |]; [| discriminate].
    intros H; injection H as <-.
    apply index_of_seq_inv in E; simpl in E; rewrite <- E.
    now rewrite (IH l eq_refl).
Qed.

Lemma skipn_cons_nth (s : list nat) (a : nat) :
  a < length s -> skipn a s = nth a s 0 :: skipn (S a) s.
Proof.
  revert a; induction s as [| x s IH]; intros a H; simpl in H; [lia |].
  destruct a as [| a]; [reflexivity |].
  simpl; rewrite IH by lia; reflexivity.
Qed.

Lemma map_nth_seq (s : list nat) (a b : nat) :
  a + b <= length s ->
  map (fun k => nth k s 0) (seq a b) = firstn b (skipn a s).
Proof.
  revert a; induction b as [| b IH]; intros a H; simpl.
  - reflexivity.
  - rewrite IH by lia.
    rewrite (skipn_cons_nth s a) by lia; reflexivity.
Qed.

Lemma reorient_canonical_shape {A} (n : nat) (ref : orientation) (v v' : ndarray A) :
  reorient (canonical n) ref n v = Ok v' ->
  shape v' = native_shape ref (shape v) /\ length ref = n /\ n <= length (shape v).
Proof.
  unfold reorient.
  destruct (Nat.leb_spec n (length (shape v))) as [Hn |]; [| discriminate].
  destruct (Nat.eqb_spec (length (canonical n)) n) as [_ |]; [| discriminate].
  destruct (Nat.eqb_spec (length ref) n) as [Hr |]; [| discriminate].
  simpl.
  destruct (matching_axes (canonical n) ref) as [axes |] eqn:E; [| discriminate].
  apply matching_axes_canonical in E; subst axes.
  intros H; injection H as <-.
  rewrite fold_flip_shape; unfold np_transpose, native_shape; simpl.
  rewrite map_app, map_map, map_nth_seq, Hr by lia.
  rewrite firstn_all2 by (rewrite length_skipn; lia).
  auto.
Qed.

Lemma native_shape_canonical_axes (ref : orientation) (s : list nat) :
  map world_axis ref = seq 0 (length ref) ->
  length ref <= length s ->
  native_shape ref s = s.
Proof.
  intros Hax Hlen; unfold native_shape.
  rewrite <- (map_map world_axis (fun k => nth k s 0)), Hax.
  rewrite map_nth_seq by lia; simpl.
  apply firstn_skipn.
Qed.

Section BatchShape.
Context {T : PyTypes} {C : Collaborators}.

Lemma built_model_output_shape (cfg : Config) (m : keras_model) (o : list (option nat)) :
  _build_labels_to_image_model cfg = Ok (m, o) ->
  exists output0, list_first (model_outputs m) = Ok output0 /\ o = tl output0.
Proof.
  unfold _build_labels_to_image_model; intros H; invert_binds H.
  injection H as <- <-; eauto.
Qed.

(** C1, as the code has it.  With a synthesizer that emits batches at
    its fixed output shape and a re-orientation that permutes and
    reverses spatial axes, every batch returned by an object built by
    [__init__] has [batchsize] as first dimension (and [batchsize] is
    at least 1), followed by the output shape recorded at setup with
    its axes taken in the native axis order of the first label map;
    when that order is the canonical one, the remaining dimensions are
    the recorded output shape itself. *)
Theorem batch_shape_in_native_axis_order (orientation_of : affine -> orientation)
    (a : Args.t) (self : BrainGenerator) (w : world)
    (image target : ndarray scalar) (self' : BrainGenerator) (w' : world) :
  synthesizer_contract ->
  reorientation_contract orientation_of (n_dims self) ->
  reachable a self ->
  generate_brain self w = (Ok (image, target), self', w') ->
  exists spatial c_in c_tgt,
    model_output_shape self = map Some (spatial ++ [c_in]) /\
    (1 <= batchsize self)%Z /\
    shape image
    = Z.to_nat (batchsize self)
        :: native_shape (orientation_of (aff self)) (spatial ++ [c_in]) /\
    shape target
    = Z.to_nat (batchsize self)
        :: native_shape (orientation_of (aff self)) (spatial ++ [c_tgt]) /\
    (map world_axis (orientation_of (aff self)) = seq 0 (n_dims self) ->
     shape image = Z.to_nat (batchsize self) :: spatial ++ [c_in] /\
     shape target = Z.to_nat (batchsize self) :: spatial ++ [c_tgt]).
Proof.
  intros Hsyn [Heye Halign] Hreach Hcall.
  apply reachable_inv in Hreach as (self0 & Hinit & Hcfg & Hmodel & Hout).
  apply init_inv in Hinit as (_ & Hbuilt & _).
  apply built_model_output_shape in Hbuilt as (output0 & Hfirst & Hshape0).
  pose proof (generate_brain_frame _ _ _ _ _ Hcall) as Hframe.
  apply generate_brain_ok_inv in Hcall
    as (ci & ct & li & lt & Hnext & Hloop & Hsi & Hst).
  apply next_brain_generator_ok_inv in Hnext
    as (_ & bundle & inputs & w1 & _ & Hpred & _).
  apply Hsyn in Hpred as (n & spatial & c_in & c_tgt & Hfirst' & Hci & Hct).
  rewrite Hmodel, Hfirst in Hfirst'; injection Hfirst' as ->.
  assert (Hc : config self' = config self) by (rewrite Hframe; reflexivity).
  rewrite Hc in Hloop.
  apply put_back_spec in Hloop as (ims & tgs & -> & -> & Him & Htg); simpl in *.
  apply np_stack_shape in Hsi as (im & ims' & -> & Hsi).
  apply np_stack_shape in Hst as (tg & tgs' & -> & Hst).
  pose proof (Forall2_length Him) as Hlen_i.
  pose proof (Forall2_length Htg) as Hlen_t.
  unfold py_range in *; rewrite length_seq in Hlen_i, Hlen_t.
  destruct (Z.to_nat (batchsize self)) as [| b] eqn:Hb; [discriminate |].
  simpl in Him, Htg.
  inversion Him as [| ? ? ? ? (si & Hgi & Hai) _]; subst.
  inversion Htg as [| ? ? ? ? (st & Hgt & Hat) _]; subst.
  apply getitem_shape in Hgi as (d & Hd & _); rewrite Hci in Hd; injection Hd as _ Hsi'.
  apply getitem_shape in Hgt as (d' & Hd' & _); rewrite Hct in Hd'; injection Hd' as _ Hst'.
  rewrite Halign, Heye in Hai, Hat.
  apply reorient_canonical_shape in Hai as (Him_shape & Hlen & Hrank).
  apply reorient_canonical_shape in Hat as (Htg_shape & _ & Hrank').
  rewrite <- Hsi' in Him_shape, Hrank; rewrite <- Hst' in Htg_shape, Hrank'.
  exists spatial, c_in, c_tgt.
  rewrite Hout, Hshape0, Hsi, Hst, Him_shape, Htg_shape, <- Hlen_i, <- Hlen_t.
  split; [reflexivity |].
  split; [lia |].
  split; [reflexivity |].
  split; [reflexivity |].
  intros Hax; rewrite <- Hlen in Hax.
  rewrite !native_shape_canonical_axes by (assumption || lia); auto.
Qed.

End BatchShape.

(** ** The in-memory collaborators meet the contracts *)

Module FixtureFacts.
Import Fixture.

Lemma synthesizer_contract_holds (d : disk) :
  @synthesizer_contract types (collaborators d).
Proof.
  intros m mi w image target w'; simpl; unfold fx_predict.
  destruct (lookup (fst mi) (volumes d)) as [v | e]; [| discriminate].
  destruct (shape_eqb (vf_shape v) (syn_labels_shape m)); [| discriminate].
  intros H; injection H as <- <- <-.
  exists (Z.to_nat (snd mi)), (syn_output_shape m), (syn_n_inputs m), (syn_n_targets m).
  repeat split.
Qed.

Lemma reorientation_contract_holds (d : disk) :
  @reorientation_contract types (collaborators d) (fun o => o) 3.
Proof. split; reflexivity. Qed.

(** On the plain disk every draw is a label map the model accepts. *)
Lemma plain_disk_always_produces (self : BrainGenerator) :
  @__init__ types (collaborators plain_disk) args = Ok self ->
  @always_produces types (collaborators plain_disk) self
    (fun g _ => g = model_inputs_generator self).
Proof.
  intros H; vm_compute in H; injection H as <-.
  intros g w ->.
  assert (Hw : w mod 2 = 0 \/ w mod 2 = 1)
    by (pose proof (Nat.mod_upper_bound w 2); lia).
  cbn [next_model_inputs collaborators model_inputs_generator].
  unfold fx_next; cbn [smp_paths length].
  destruct Hw as [-> | ->]; cbn [nth_error];
    do 9 eexists;
    (split; [reflexivity |]);
    (split; [cbv -[Z.of_nat Nat.add]; reflexivity |]);
    (split; [cbv -[Z.of_nat Nat.add]; reflexivity |]);
    (split; [cbv -[Z.of_nat Nat.add]; reflexivity |]);
    (split; [cbv -[Z.of_nat Nat.add]; reflexivity |]);
    reflexivity.
Qed.

End FixtureFacts.

(** ** The claims on the in-memory collaborators *)

(** C1 fails as stated: with label maps stored with their first two
    axes exchanged and the output shape (1, 2, 1), the synthesizer
    emits batches of shape (2, 1, 2, 1, 1) and [generate_brain] returns
    an image batch of shape (2, 2, 1, 1, 1). *)
Lemma batch_shape_counterexample :
  exists (image target : Fixture.volume) (self' : Fixture.object) (w' : nat),
    @__init__ Fixture.types Fixture.swapped Fixture.args = Ok Fixture.swapped_object /\
    @generate_brain Fixture.types Fixture.swapped Fixture.swapped_object 0
    = (Ok (image, target), self', w') /\
    batchsize Fixture.swapped_object = 2%Z /\
    model_output_shape Fixture.swapped_object = [Some 1; Some 2; Some 1; Some 1] /\
    shape image = [2; 2; 1; 1; 1] /\
    shape image <> [2; 1; 2; 1; 1].
Proof.
  do 4 eexists.
  split; [vm_compute; reflexivity |].
  split; [vm_compute; reflexivity |].
  repeat split; discriminate.
Qed.

Lemma batch_shape_witness :
  @synthesizer_contract Fixture.types Fixture.swapped /\
  @reorientation_contract Fixture.types Fixture.swapped (fun o => o)
    (n_dims Fixture.swapped_object) /\
  @reachable Fixture.types Fixture.swapped Fixture.args Fixture.swapped_object /\
  exists (image target : Fixture.volume) (self' : Fixture.object) (w' : nat),
    @generate_brain Fixture.types Fixture.swapped Fixture.swapped_object 0
    = (Ok (image, target), self', w') /\
    exists spatial c_in c_tgt,
      model_output_shape Fixture.swapped_object = map Some (spatial ++ [c_in]) /\
      (1 <= batchsize Fixture.swapped_object)%Z /\
      shape image
      = Z.to_nat (batchsize Fixture.swapped_object)
          :: native_shape (aff Fixture.swapped_object) (spatial ++ [c_in]) /\
      shape target
      = Z.to_nat (batchsize Fixture.swapped_object)
          :: native_shape (aff Fixture.swapped_object) (spatial ++ [c_tgt]) /\
      (map world_axis (aff Fixture.swapped_object)
       = seq 0 (n_dims Fixture.swapped_object) ->
       shape image = Z.to_nat (batchsize Fixture.swapped_object) :: spatial ++ [c_in] /\
       shape target = Z.to_nat (batchsize Fixture.swapped_object) :: spatial ++ [c_tgt]).
Proof.
  assert (Hsyn := FixtureFacts.synthesizer_contract_holds Fixture.transposed_disk).
  assert (Hori := FixtureFacts.reorientation_contract_holds Fixture.transposed_disk).
  assert (Hreach : @reachable Fixture.types Fixture.swapped Fixture.args
                     Fixture.swapped_object)
    by (apply reach_init; vm_compute; reflexivity).
  split; [exact Hsyn |].
  split; [exact Hori |].
  split; [exact Hreach |].
  do 4 eexists.
  split; [vm_compute; reflexivity |].
  eapply (@batch_shape_in_native_axis_order Fixture.types Fixture.swapped (fun o => o)
            Fixture.args Fixture.swapped_object 0);
    [exact Hsyn | exact Hori | exact Hreach | vm_compute; reflexivity].
Defined.

Lemma image_and_target_realigned_alike_witness :
  @reachable Fixture.types Fixture.swapped Fixture.args Fixture.swapped_object /\
  aff Fixture.swapped_object = Fixture.transposed /\
  exists (image target : Fixture.volume) (self' : Fixture.object) (w' : nat)
         (canon_image canon_target : Fixture.volume)
         (list_images list_targets : list Fixture.volume),
    @generate_brain Fixture.types Fixture.swapped Fixture.swapped_object 0
    = (Ok (image, target), self', w') /\
    @next_brain_generator Fixture.types Fixture.swapped Fixture.swapped_object 0
    = (Ok (canon_image, canon_target), self', w') /\
    np_stack list_images = Ok image /\
    np_stack list_targets = Ok target /\
    Forall2 (@realigned Fixture.types Fixture.swapped
               (aff Fixture.swapped_object) (n_dims Fixture.swapped_object) canon_image)
      (py_range (batchsize Fixture.swapped_object)) list_images /\
    Forall2 (@realigned Fixture.types Fixture.swapped
               (aff Fixture.swapped_object) (n_dims Fixture.swapped_object) canon_target)
      (py_range (batchsize Fixture.swapped_object)) list_targets /\
    shape canon_image = [2; 1; 2; 1; 1] /\
    shape image = [2; 2; 1; 1; 1] /\
    length list_images = 2.
Proof.
  assert (Hreach : @reachable Fixture.types Fixture.swapped Fixture.args
                     Fixture.swapped_object)
    by (apply reach_init; vm_compute; reflexivity).
  split; [exact Hreach |].
  split; [reflexivity |].
  destruct (@image_and_target_realigned_alike Fixture.types Fixture.swapped
              Fixture.args Fixture.swapped_object Hreach)
    as (paths & first & info & _ & _ & _ & Haff & Hdims & Hcalls).
  assert (Hret : exists (image target : Fixture.volume) (self' : Fixture.object)
                        (w' : nat),
             @generate_brain Fixture.types Fixture.swapped Fixture.swapped_object 0
             = (Ok (image, target), self', w'))
    by (do 4 eexists; vm_compute; reflexivity).
  destruct Hret as (image & target & self' & w' & Hcall).
  destruct (proj1 (Hcalls 0 image target self' w') Hcall)
    as (ci & ct & li & lt & Hnext & Hsi & Hst & Him & Htg).
  rewrite <- Haff, <- Hdims in Him, Htg.
  exists image, target, self', w', ci, ct, li, lt.
  split; [exact Hcall |].
  split; [exact Hnext |].
  split; [exact Hsi |].
  split; [exact Hst |].
  split; [exact Him |].
  split; [exact Htg |].
  split; [| split].
  - pose proof Hnext as Hn; vm_compute in Hn; injection Hn as <- _ _ _; reflexivity.
  - pose proof Hcall as Hv; vm_compute in Hv; injection Hv as <- _ _ _; reflexivity.
  - apply Forall2_length in Him; symmetry; exact Him.
Defined.

(** The class map (0, 0, 2) over three labels is refused by the
    contiguity assertion. *)
Example gapped_classes_rejected :
  @init_generation_classes Fixture.types Fixture.plain
    (Some (Value Fixture.short_classes)) (mk_ndarray [3] [0; 1; 2]%Z)
  = Raise (AssertionError
      "generation_classes should a linear range between 0 and its maximum value.").
Proof. reflexivity. Qed.

(** The same from [__init__]: a gapped class map of the shape of the
    seven labels, and the class map (0, 0, 2) against seven labels. *)
Example gapped_classes_rejected_at_construction :
  @__init__ Fixture.types Fixture.plain Fixture.gapped_args
  = Raise (AssertionError
      "generation_classes should a linear range between 0 and its maximum value.").
Proof. vm_compute; reflexivity. Qed.

Example misshaped_classes_rejected_at_construction :
  @__init__ Fixture.types Fixture.plain Fixture.short_args
  = Raise (AssertionError
      "if provided, generation labels should have the same shape as generation_labels").
Proof. vm_compute; reflexivity. Qed.

Lemma generation_classes_contiguous_or_rejected_witness :
  (@__init__ Fixture.types Fixture.plain Fixture.args = Ok Fixture.plain_object /\
   exists K, 0 < K /\
     data (np_unique (generation_classes Fixture.plain_object))
     = map Z.of_nat (seq 0 K) /\
     forall v, In v (data (generation_classes Fixture.plain_object))
               <-> (0 <= v < Z.of_nat K)%Z) /\
  (In 2%Z (data Fixture.gapped_classes) /\
   ~ In 1%Z (data Fixture.gapped_classes) /\
   exists e, @__init__ Fixture.types Fixture.plain Fixture.gapped_args = Raise e) /\
  (fst (fst (@generate_brain Fixture.types Fixture.plain Fixture.plain_object 0))
   = fst (fst (@generate_brain Fixture.types Fixture.plain Fixture.default_object 0))).
Proof.
  destruct (@generation_classes_contiguous_or_rejected Fixture.types Fixture.plain)
    as (Hok & Hbad & Hcall).
  assert (Hinit : @__init__ Fixture.types Fixture.plain Fixture.args
                  = Ok Fixture.plain_object) by (vm_compute; reflexivity).
  assert (Hin : In 2%Z (data Fixture.gapped_classes)) by (simpl; auto).
  assert (Hnot : ~ In 1%Z (data Fixture.gapped_classes))
    by (simpl; intuition discriminate).
  split; [| split].
  - split; [exact Hinit |].
    exact (Hok Fixture.args Fixture.plain_object (Path "classes.npy") Hinit eq_refl).
  - split; [exact Hin |]; split; [exact Hnot |].
    apply (Hbad Fixture.gapped_args (Value Fixture.gapped_classes)
             Fixture.gapped_classes 2%Z eq_refl eq_refl Hin).
    right; exists 1%Z; split; [lia | exact Hnot].
  - exact (proj1 (Hcall Fixture.plain_object Fixture.default_object 0
                    eq_refl eq_refl eq_refl eq_refl eq_refl eq_refl)).
Defined.

Lemma images_count_checked_witness :
  (@init_data_files Fixture.types Fixture.plain Fixture.paired_args
   = Ok (["labels/a.nii"; "labels/b.nii"], Some ["images/a.nii"; "images/b.nii"])) /\
  (@__init__ Fixture.types Fixture.plain Fixture.unpaired_args
   = Raise (AssertionError "Different number of images and segmentations")).
Proof.
  split.
  - apply (@images_count_checked Fixture.types Fixture.plain Fixture.paired_args
             "images" ["labels/a.nii"; "labels/b.nii"] ["images/a.nii"; "images/b.nii"]
             eq_refl eq_refl eq_refl).
    reflexivity.
  - apply (@images_count_checked Fixture.types Fixture.plain Fixture.unpaired_args
             "one_image" ["labels/a.nii"; "labels/b.nii"] ["images/a.nii"]
             eq_refl eq_refl eq_refl).
    simpl; discriminate.
Defined.

Lemma generation_classes_shape_checked_witness :
  (@__init__ Fixture.types Fixture.plain Fixture.args = Ok Fixture.plain_object /\
   shape (generation_classes Fixture.plain_object)
   = shape (generation_labels Fixture.plain_object)) /\
  (shape Fixture.short_classes <> [7] /\
   (@init_generation_classes Fixture.types Fixture.plain
      (Some (Value Fixture.short_classes))
      (mk_ndarray [7] [0; 1; 2; 3; 4; 5; 6]%Z)
    = Raise (AssertionError
        "if provided, generation labels should have the same shape as generation_labels")) /\
   exists e, @__init__ Fixture.types Fixture.plain Fixture.short_args = Raise e).
Proof.
  destruct (@generation_classes_shape_checked Fixture.types Fixture.plain) as (Hok & Hbad).
  assert (Hinit : @__init__ Fixture.types Fixture.plain Fixture.args
                  = Ok Fixture.plain_object) by (vm_compute; reflexivity).
  assert (Hne : shape Fixture.short_classes <> [7]) by (simpl; discriminate).
  split.
  - split; [exact Hinit |].
    exact (Hok Fixture.args Fixture.plain_object (Path "classes.npy") Hinit eq_refl).
  - split; [exact Hne |].
    exact (Hbad Fixture.short_args (Value Fixture.short_classes) Fixture.short_classes
             (mk_ndarray [7] [0; 1; 2; 3; 4; 5; 6]%Z) eq_refl eq_refl eq_refl Hne).
Defined.


(** Seven labels with four declared neutral leave three sided labels,
    which do not split in two halves; the object is built all the same. *)
Example odd_sided_suffix_accepted :
  is_ok (@__init__ Fixture.types Fixture.plain Fixture.odd_args) = true.
Proof. vm_compute; reflexivity. Qed.


Lemma flip_label_map_twice_witness :
  NoDup (skipn 3 [0; 1; 2; 3; 4; 5; 6]%Z) /\
  well_formed (mk_ndarray [2; 2] [3; 5; 0; 6]%Z) /\
  flip_label_map [0; 1; 2; 3; 4; 5; 6]%Z 3 0
    (flip_label_map [0; 1; 2; 3; 4; 5; 6]%Z 3 0 (mk_ndarray [2; 2] [3; 5; 0; 6]%Z))
  = mk_ndarray [2; 2] [3; 5; 0; 6]%Z.
Proof.
  assert (Hnd : NoDup (skipn 3 [0; 1; 2; 3; 4; 5; 6]%Z)).
  { simpl; repeat (constructor; [simpl; intuition discriminate |]); constructor. }
  assert (Hwf : well_formed (mk_ndarray [2; 2] [3; 5; 0; 6]%Z)) by reflexivity.
  split; [exact Hnd |].
  split; [exact Hwf |].
  exact (flip_label_map_twice [0; 1; 2; 3; 4; 5; 6]%Z 3 0
           (mk_ndarray [2; 2] [3; 5; 0; 6]%Z) Hnd Hwf).
Defined.

(** C4 fails as stated: on the disk whose second label map has a shape
    the model refuses, two invocations from the state of the random
    source that draws it first make one draw and one [predict] between
    them and produce no batch; the second invocation draws nothing and
    finds the generator exhausted. *)
Lemma exhausted_invocation_counterexample :
  @__init__ Fixture.types Fixture.mixed Fixture.args = Ok Fixture.mixed_object /\
  @generate_brains Fixture.types (Counting.collaborators Fixture.mixed) 2
    Fixture.mixed_object (1, 0, 0)
  = ([ Raise (External "label map shape incompatible with the model input");
       Raise StopIteration ],
     Fixture.finished_object, (2, 1, 1)) /\
  @generate_brain Fixture.types (Counting.collaborators Fixture.mixed)
    Fixture.finished_object (2, 1, 1)
  = (Raise StopIteration, Fixture.finished_object, (2, 1, 1)).
Proof.
  split; [vm_compute; reflexivity |].
  split; vm_compute; reflexivity.
Qed.

Lemma one_draw_one_predict_per_batch_witness :
  (exists (image target : Fixture.volume) (self' : Fixture.object) (w' : nat),
      @generate_brain Fixture.types Fixture.plain Fixture.plain_object 0
      = (Ok (image, target), self', w') /\
      exists bundle inputs w1 batch,
        @next_model_inputs Fixture.types Fixture.plain
          (model_inputs_generator Fixture.plain_object) 0 = (Ok bundle, inputs, w1) /\
        @predict Fixture.types Fixture.plain
          (labels_to_image_model_ Fixture.plain_object) bundle w1 = (Ok batch, w') /\
        model_inputs_generator self' = inputs /\
        brain_generator self' = Suspended) /\
  (exists r (self' : Fixture.object) (w' draws' calls' : nat),
      @generate_brain Fixture.types (Counting.collaborators Fixture.plain)
        Fixture.plain_object (0, 0, 0) = (r, self', (w', draws', calls')) /\
      is_ok r = true /\ draws' = 1 /\ calls' = 1) /\
  (exists r (self' : Fixture.object) (w' draws' calls' : nat),
      brain_generator Fixture.finished_object = Finished /\
      @generate_brain Fixture.types (Counting.collaborators Fixture.mixed)
        Fixture.finished_object (2, 1, 1) = (r, self', (w', draws', calls')) /\
      draws' = 1 /\ calls' = 1 /\ r = Raise StopIteration /\
      self' = Fixture.finished_object /\ w' = 2) /\
  (exists r (self' : Fixture.object) (w' : nat),
      brain_generator Fixture.mixed_object = Suspended /\
      @generate_brain Fixture.types Fixture.mixed Fixture.mixed_object 1
      = (r, self', w') /\
      brain_generator self' = Finished /\
      exists e, r = Raise (generator_raise e) /\
        ((exists g w1,
             @next_model_inputs Fixture.types Fixture.mixed
               (model_inputs_generator Fixture.mixed_object) 1 = (Raise e, g, w1)) \/
         (exists bundle g w1,
             @next_model_inputs Fixture.types Fixture.mixed
               (model_inputs_generator Fixture.mixed_object) 1 = (Ok bundle, g, w1) /\
             @predict Fixture.types Fixture.mixed
               (labels_to_image_model_ Fixture.mixed_object) bundle w1
             = (Raise e, w')))) /\
  (@always_produces Fixture.types Fixture.plain Fixture.plain_object
     (fun g _ => g = model_inputs_generator Fixture.plain_object) /\
   brain_generator Fixture.plain_object = Suspended /\
   exists batches self' w',
     @generate_brains Fixture.types Fixture.plain 3 Fixture.plain_object 0
     = (map Ok batches, self', w') /\
     length batches = 3 /\
     brain_generator self' = Suspended).
Proof.
  destruct (@one_draw_one_predict_per_batch Fixture.types Fixture.plain)
    as (Hbatch & Hcount & _ & Hrun).
  destruct (@one_draw_one_predict_per_batch Fixture.types Fixture.mixed)
    as (_ & Hcount' & Hfinish & _).
  split; [| split; [| split; [| split]]].
  - do 4 eexists; split; [vm_compute; reflexivity |].
    eapply Hbatch; vm_compute; reflexivity.
  - destruct (@generate_brain Fixture.types (Counting.collaborators Fixture.plain)
                Fixture.plain_object (0, 0, 0)) as [[r self'] [[w' draws'] calls']] eqn:Hcall.
    assert (Hr : is_ok r = true)
      by (pose proof Hcall as Hv; vm_compute in Hv; injection Hv as <- _ _ _ _;
          reflexivity).
    destruct (Hcount Fixture.plain_object 0 0 0 r self' w' draws' calls' Hcall)
      as (_ & _ & Hok & _).
    destruct (Hok Hr) as (Hd & Hc).
    exists r, self', w', draws', calls'; auto.
  - destruct (@generate_brain Fixture.types (Counting.collaborators Fixture.mixed)
                Fixture.finished_object (2, 1, 1))
      as [[r self'] [[w' draws'] calls']] eqn:Hcall.
    destruct (Hcount' Fixture.finished_object 2 1 1 r self' w' draws' calls' Hcall)
      as (_ & _ & _ & _ & Hfin).
    destruct (Hfin eq_refl) as (Hd & Hc & Hr & Hs & Hw).
    exists r, self', w', draws', calls'; repeat split; auto.
  - do 3 eexists; split; [reflexivity |].
    split; [vm_compute; reflexivity |].
    split; [reflexivity |].
    eapply (Hfinish Fixture.mixed_object 1);
      [reflexivity | vm_compute; reflexivity | reflexivity].
  - assert (Hprod := FixtureFacts.plain_disk_always_produces Fixture.plain_object
                       ltac:(vm_compute; reflexivity)).
    split; [exact Hprod |].
    split; [reflexivity |].
    exact (Hrun _ Fixture.plain_object 0 3 Hprod eq_refl eq_refl).
Defined.

(** C9 fails as stated: on the disk whose second label map has a shape
    the model refuses, the call that draws it raises and leaves the
    generator finished; the retry raises [StopIteration]; had the
    generator been left suspended, the retry would have returned a
    batch. *)
Lemma failed_call_counterexample :
  exists e (self' : Fixture.object) (w' : nat)
         (batch : Fixture.volume * Fixture.volume) (self'' : Fixture.object) (w'' : nat),
    @__init__ Fixture.types Fixture.mixed Fixture.args = Ok Fixture.mixed_object /\
    @generate_brain Fixture.types Fixture.mixed Fixture.mixed_object 1
    = (Raise e, self', w') /\
    brain_generator Fixture.mixed_object = Suspended /\
    brain_generator self' = Finished /\
    @generate_brain Fixture.types Fixture.mixed self' w'
    = (Raise StopIteration, self', w') /\
    @generate_brain Fixture.types Fixture.mixed
      (with_generators (model_inputs_generator self') Suspended self') w'
    = (Ok batch, self'', w'').
Proof.
  do 6 eexists.
  split; [vm_compute; reflexivity |].
  split; [vm_compute; reflexivity |].
  split; [reflexivity |].
  split; [reflexivity |].
  split; vm_compute; reflexivity.
Qed.

Lemma generate_brain_frame_and_failure_witness :
  (exists r (self' : Fixture.object) (w' : nat),
      @generate_brain Fixture.types Fixture.mixed Fixture.mixed_object 1
      = (r, self', w') /\
      config self' = config Fixture.mixed_object /\
      r = Raise (External "label map shape incompatible with the model input") /\
      brain_generator self' = Finished /\
      forall w2,
        @generate_brain Fixture.types Fixture.mixed self' w2
        = (Raise StopIteration, self', w2)) /\
  (exists r (self' : Fixture.object) (w' : nat)
          (batch : Fixture.volume * Fixture.volume),
      @generate_brain Fixture.types Fixture.plain Fixture.zero_batch_object 0
      = (r, self', w') /\
      @next_brain_generator Fixture.types Fixture.plain Fixture.zero_batch_object 0
      = (Ok batch, self', w') /\
      r = Raise (ValueError "need at least one array to stack") /\
      config self' = config Fixture.zero_batch_object /\
      brain_generator self' = Suspended).
Proof.
  split.
  - destruct (@generate_brain Fixture.types Fixture.mixed Fixture.mixed_object 1)
      as [[r self'] w'] eqn:Hcall.
    destruct (@generate_brain_frame_and_failure Fixture.types Fixture.mixed
                Fixture.mixed_object 1 r self' w' Hcall)
      as ((Hcfg & _ & _) & _ & Hloop & Hsticky).
    destruct (Hloop eq_refl) as (_ & Hpredict & _).
    edestruct Hpredict as (Hr & Hs & _);
      [vm_compute; reflexivity | vm_compute; reflexivity |].
    exists r, self', w'.
    split; [reflexivity |].
    split; [exact Hcfg |].
    split; [exact Hr |].
    assert (Hfin : brain_generator self' = Finished) by (rewrite Hs; reflexivity).
    split; [exact Hfin | exact (Hsticky Hfin)].
  - destruct (@generate_brain Fixture.types Fixture.plain Fixture.zero_batch_object 0)
      as [[r self'] w'] eqn:Hcall.
    destruct (@generate_brain_frame_and_failure Fixture.types Fixture.plain
                Fixture.zero_batch_object 0 r self' w' Hcall)
      as ((Hcfg & _ & _) & _ & Hloop & _).
    destruct (Hloop eq_refl) as (_ & _ & Hyield).
    edestruct Hyield as (Hs & Hw & Hg);
      [vm_compute; reflexivity | vm_compute; reflexivity |].
    pose proof Hcall as Hv; vm_compute in Hv; injection Hv as Hr _ _.
    eexists r, self', w', _.
    split; [reflexivity |].
    split; [rewrite Hs, Hw; vm_compute; reflexivity |].
    split; [symmetry; exact Hr |].
    split; [exact Hcfg | exact Hg].
Defined.

(* ================================================================== *)
(** * Further properties of the class *)

(** ** The size of a batch *)

Section BatchSize.
Context {T : PyTypes} {C : Collaborators}.

Lemma py_range_nonpositive (n : Z) : (n <= 0)%Z -> py_range n = [].
Proof.
  intros H; unfold py_range.
  replace (Z.to_nat n) with 0 by lia; reflexivity.
Qed.

Lemma realigned_last_in_range (a_ref : affine) (n : nat) (batch : ndarray scalar)
    (b : nat) (l : list (ndarray scalar)) :
  Forall2 (realigned a_ref n batch) (seq 0 (S b)) l ->
  exists d rest, shape batch = d :: rest /\ S b <= d.
Proof.
  intros H.
  assert (Hb : nth_error (seq 0 (S b)) b = Some b).
  { rewrite nth_error_seq; destruct (Nat.ltb_spec b (S b)); [reflexivity | lia]. }
  destruct (Forall2_nth_error _ _ _ _ _ H Hb) as (v & _ & sample & Hget & _).
  apply getitem_shape in Hget as (d & Hd & Hlt).
  exists d, (shape sample); split; [assumption | lia].
Qed.

(** X1.  A call that returns has a batch size of at least 1, returns an
    image batch and a target batch of exactly [batchsize] samples, and
    got from the synthesizer an image batch and a target batch of at
    least [batchsize] samples each: the samples beyond [batchsize] are
    dropped, and a synthesizer that emits fewer makes the call raise. *)
Theorem returned_batch_has_batchsize_samples (self : BrainGenerator) (w : world)
    (image target : ndarray scalar) (self' : BrainGenerator) (w' : world) :
  generate_brain self w = (Ok (image, target), self', w') ->
  (1 <= batchsize self)%Z /\
  exists canon_image canon_target,
    next_brain_generator self w = (Ok (canon_image, canon_target), self', w') /\
    (exists s, shape image = Z.to_nat (batchsize self) :: s) /\
    (exists s, shape target = Z.to_nat (batchsize self) :: s) /\
    (exists d s, shape canon_image = d :: s /\ Z.to_nat (batchsize self) <= d) /\
    (exists d s, shape canon_target = d :: s /\ Z.to_nat (batchsize self) <= d).
Proof.
  intros Hcall.
  pose proof (generate_brain_frame _ _ _ _ _ Hcall) as Hframe.
  apply generate_brain_ok_inv in Hcall
    as (ci & ct & li & lt & Hnext & Hloop & Hsi & Hst).
  assert (Hc : config self' = config self) by (rewrite Hframe; reflexivity).
  rewrite Hc in Hloop.
  apply put_back_spec in Hloop as (ims & tgs & -> & -> & Him & Htg); simpl in *.
  apply np_stack_shape in Hsi as (im & ims' & -> & Hsi).
  apply np_stack_shape in Hst as (tg & tgs' & -> & Hst).
  pose proof (Forall2_length Him) as Hlen_i.
  pose proof (Forall2_length Htg) as Hlen_t.
  unfold py_range in *; rewrite length_seq in Hlen_i, Hlen_t.
  destruct (Z.to_nat (batchsize self)) as [| b] eqn:Hb; [discriminate |].
  split; [lia |].
  exists ci, ct; split; [assumption |].
  rewrite Hsi, Hst, <- Hlen_i, <- Hlen_t.
  split; [eauto |]; split; [eauto |].
  split; eapply realigned_last_in_range; eassumption.
Qed.

(** X2.  With a batch size of zero or less no call returns a batch: a
    call whose generation loop yields draws the bundle, runs the
    synthesizer, and then raises the [ValueError] of [np.stack] on an
    empty list, leaving the object as the loop left it. *)
Theorem nonpositive_batchsize_never_returns (self : BrainGenerator) (w : world)
    (r : result (ndarray scalar * ndarray scalar)) (self' : BrainGenerator) (w' : world) :
  (batchsize self <= 0)%Z ->
  generate_brain self w = (r, self', w') ->
  is_ok r = false /\
  forall batch s1 w1,
    next_brain_generator self w = (Ok batch, s1, w1) ->
    r = Raise (ValueError "need at least one array to stack") /\ self' = s1 /\ w' = w1.
Proof.
  intros Hb Hcall; split.
  - destruct r as [[image target] | e]; [| reflexivity].
    apply returned_batch_has_batchsize_samples in Hcall as (H1 & _); lia.
  - intros [ci ct] s1 w1 Hnext.
    pose proof (next_brain_generator_frame _ _ _ _ _ Hnext) as Hframe.
    unfold generate_brain in Hcall; rewrite Hnext in Hcall.
    assert (Hc : batchsize s1 = batchsize self) by (rewrite Hframe; reflexivity).
    rewrite Hc, py_range_nonpositive in Hcall by assumption; simpl in Hcall.
    injection Hcall as <- <- <-; auto.
Qed.

(** X3.  Once the generator is finished, any number of further calls
    all raise [StopIteration] and leave the object and the random
    source untouched: nothing is drawn and the synthesizer is not run
    again. *)
Theorem finished_generator_stays_finished (self : BrainGenerator) (w : world) (n : nat) :
  brain_generator self = Finished ->
  generate_brains n self w = (repeat (Raise StopIteration) n, self, w).
Proof.
  intros Hfin; induction n as [| n IH]; [reflexivity |].
  cbn [generate_brains repeat].
  unfold generate_brain, next_brain_generator; rewrite Hfin.
  rewrite IH; reflexivity.
Qed.

End BatchSize.

Lemma returned_batch_has_batchsize_samples_witness :
  exists (image target : Fixture.volume) (self' : Fixture.object) (w' : nat),
    @generate_brain Fixture.types Fixture.plain Fixture.plain_object 0
    = (Ok (image, target), self', w') /\
    (1 <= batchsize Fixture.plain_object)%Z /\
    exists canon_image canon_target,
      @next_brain_generator Fixture.types Fixture.plain Fixture.plain_object 0
      = (Ok (canon_image, canon_target), self', w') /\
      (exists s, shape image = Z.to_nat (batchsize Fixture.plain_object) :: s) /\
      (exists s, shape target = Z.to_nat (batchsize Fixture.plain_object) :: s) /\
      (exists d s, shape canon_image = d :: s /\
                   Z.to_nat (batchsize Fixture.plain_object) <= d) /\
      (exists d s, shape canon_target = d :: s /\
                   Z.to_nat (batchsize Fixture.plain_object) <= d).
Proof.
  do 4 eexists; split; [vm_compute; reflexivity |].
  eapply (@returned_batch_has_batchsize_samples Fixture.types Fixture.plain
            Fixture.plain_object 0).
  vm_compute; reflexivity.
Defined.

Lemma nonpositive_batchsize_never_returns_witness :
  (batchsize Fixture.zero_batch_object <= 0)%Z /\
  exists r (self' : Fixture.object) (w' : nat),
    @generate_brain Fixture.types Fixture.plain Fixture.zero_batch_object 0
    = (r, self', w') /\
    is_ok r = false /\
    forall batch s1 w1,
      @next_brain_generator Fixture.types Fixture.plain Fixture.zero_batch_object 0
      = (Ok batch, s1, w1) ->
      r = Raise (ValueError "need at least one array to stack") /\
      self' = s1 /\ w' = w1.
Proof.
  assert (Hb : (batchsize Fixture.zero_batch_object <= 0)%Z) by (simpl; lia).
  split; [exact Hb |].
  do 3 eexists; split; [vm_compute; reflexivity |].
  eapply (@nonpositive_batchsize_never_returns Fixture.types Fixture.plain
            Fixture.zero_batch_object 0); [exact Hb | vm_compute; reflexivity].
Defined.

Lemma finished_generator_stays_finished_witness :
  brain_generator Fixture.finished_object = Finished /\
  @generate_brains Fixture.types (Counting.collaborators Fixture.mixed) 4
    Fixture.finished_object (2, 1, 1)
  = (repeat (Raise StopIteration) 4, Fixture.finished_object, (2, 1, 1)).
Proof.
  split; [reflexivity |].
  exact (@finished_generator_stays_finished Fixture.types
           (Counting.collaborators Fixture.mixed) Fixture.finished_object (2, 1, 1) 4
           eq_refl).
Defined.

(** ** What a constructed object holds *)

Section ObjectInvariants.
Context {T : PyTypes} {C : Collaborators}.

Lemma init_data_files_inv (a : Args.t) (paths : list string * option (list string)) :
  init_data_files a = Ok paths ->
  list_images_in_folder (Args.labels_dir a) = Ok (fst paths) /\
  match Args.images_dir a with
  | None => snd paths = None
  | Some d => exists ip, list_images_in_folder d = Ok ip /\
                         snd paths = Some ip /\ length ip = length (fst paths)
  end.
Proof.
  unfold init_data_files; intros H; invert_binds H.
  destruct (Args.images_dir a) as [d |].
  - invert_binds H; injection H as <-; simpl.
    apply assert_ok_inv, Nat.eqb_eq in E1.
    split; [assumption |]; exists x0; auto.
  - injection H as <-; auto.
Qed.

Lemma list_first_ok_inv {A} (l : list A) (x : A) : list_first l = Ok x -> l <> [].
Proof. destruct l; [discriminate | discriminate]. Qed.

(** X4.  With an empty label-map folder no object is built: without
    [images_dir], or with an image folder that is empty too,
    [__init__] raises the [IndexError] of [labels_paths[0]]; with a
    folder that lists images it raises the count-mismatch assertion,
    which comes first. *)
Theorem empty_label_folder_rejected (a : Args.t) :
  list_images_in_folder (Args.labels_dir a) = Ok [] ->
  (Args.images_dir a = None -> __init__ a = Raise IndexError) /\
  (forall d ip,
      Args.images_dir a = Some d ->
      list_images_in_folder d = Ok ip ->
      (ip = [] -> __init__ a = Raise IndexError) /\
      (ip <> [] ->
       __init__ a
       = Raise (AssertionError "Different number of images and segmentations"))).
Proof.
  intros Hlp; split.
  - intros Hdir; unfold __init__, init_config, init_data_files.
    rewrite Hlp; simpl; rewrite Hdir; reflexivity.
  - intros d ip Hdir Hip; split; intros H;
      unfold __init__, init_config, init_data_files;
      rewrite Hlp; simpl; rewrite Hdir, Hip; simpl.
    + subst ip; reflexivity.
    + destruct ip; [contradiction | reflexivity].
Qed.

(** X5.  Every object a program holds lists at least one label map, the
    listing of [labels_dir]; its image paths are absent exactly when
    [images_dir] was not given, and otherwise are the listing of
    [images_dir], as long as the label-map listing. *)
Theorem paths_listed_and_paired (a : Args.t) (self : BrainGenerator) :
  reachable a self ->
  labels_paths self <> [] /\
  list_images_in_folder (Args.labels_dir a) = Ok (labels_paths self) /\
  match Args.images_dir a with
  | None => images_paths self = None
  | Some d => exists ip, list_images_in_folder d = Ok ip /\
                         images_paths self = Some ip /\
                         length ip = length (labels_paths self)
  end.
Proof.
  intros Hreach.
  apply reachable_inv in Hreach as (self0 & Hinit & Hcfg & _).
  apply init_inv in Hinit as (Hinit & _).
  apply init_config_inv in Hinit
    as (paths & first & info & labels & Hfiles & Hfirst & _ & _ & _ & _ & Hl & Hi & _).
  apply init_data_files_inv in Hfiles as (Hlist & Himages).
  apply list_first_ok_inv in Hfirst.
  rewrite Hcfg, Hl, Hi; auto.
Qed.

Lemma sampler_built_inv (cfg : Config) (g : inputs_generator) :
  _build_model_inputs_generator cfg = Ok g ->
  exists n rest, shape (generation_labels cfg) = n :: rest.
Proof.
  unfold _build_model_inputs_generator, len_ndarray; intros H.
  destruct (shape (generation_labels cfg)) as [| n rest]; [discriminate | eauto].
Qed.

(** X6.  Every object a program holds has generation labels of at least
    one dimension (a 0-d array makes [__init__] raise), and a class map
    with as many entries along its first axis as the generation labels;
    when [n_neutral_labels] was omitted it is that same number. *)
Theorem labels_and_classes_have_one_length (a : Args.t) (self : BrainGenerator) :
  reachable a self ->
  exists n rest,
    shape (generation_labels self) = n :: rest /\
    shape0 (generation_classes self) = Ok n /\
    (Args.n_neutral_labels a = None -> n_neutral_labels self = Z.of_nat n).
Proof.
  intros Hreach.
  apply reachable_inv in Hreach as (self0 & Hinit & Hcfg & _).
  apply init_inv in Hinit as (Hinit & _ & Hsampler & _).
  apply sampler_built_inv in Hsampler as (n & rest & Hshape).
  apply init_config_inv in Hinit
    as (paths & first & info & labels & _ & _ & _ & _ & Hcls & Hn & _ & _ & _ & _ & Hl & _).
  rewrite Hcfg; exists n, rest; split; [assumption |].
  rewrite Hl in Hshape; split.
  - destruct (Args.generation_classes a) as [arg |].
    + apply supplied_classes_inv in Hcls as (_ & Hs & _).
      unfold shape0; rewrite Hs, Hshape; reflexivity.
    + apply default_classes_inv in Hcls as (d & Hd & ->).
      unfold shape0 in *; rewrite Hshape in Hd; injection Hd as <-.
      simpl; now rewrite Nat2Z.id.
  - intros Hnone; rewrite Hnone in Hn; destruct Hn as (d & Hd & ->).
    unfold shape0 in Hd; rewrite Hshape in Hd; now injection Hd as <-.
Qed.

End ObjectInvariants.

Lemma empty_label_folder_rejected_witness :
  (@__init__ Fixture.types Fixture.empty Fixture.args = Raise IndexError) /\
  (@__init__ Fixture.types Fixture.empty Fixture.paired_args = Raise IndexError) /\
  (@__init__ Fixture.types Fixture.empty Fixture.unpaired_args
   = Raise (AssertionError "Different number of images and segmentations")).
Proof.
  split; [| split].
  - exact (proj1 (@empty_label_folder_rejected Fixture.types Fixture.empty
                    Fixture.args eq_refl) eq_refl).
  - exact (proj1 (proj2 (@empty_label_folder_rejected Fixture.types Fixture.empty
                           Fixture.paired_args eq_refl)
                    "images" [] eq_refl eq_refl) eq_refl).
  - apply (proj2 (@empty_label_folder_rejected Fixture.types Fixture.empty
                    Fixture.unpaired_args eq_refl)
             "one_image" ["images/a.nii"] eq_refl eq_refl).
    discriminate.
Defined.

Lemma paths_listed_and_paired_witness :
  @reachable Fixture.types Fixture.plain Fixture.args Fixture.plain_object /\
  labels_paths Fixture.plain_object <> [] /\
  @list_images_in_folder Fixture.types Fixture.plain (Args.labels_dir Fixture.args)
  = Ok (labels_paths Fixture.plain_object) /\
  images_paths Fixture.plain_object = None.
Proof.
  assert (Hreach : @reachable Fixture.types Fixture.plain Fixture.args
                     Fixture.plain_object)
    by (apply reach_init; vm_compute; reflexivity).
  split; [exact Hreach |].
  exact (@paths_listed_and_paired Fixture.types Fixture.plain
           Fixture.args Fixture.plain_object Hreach).
Defined.

Lemma labels_and_classes_have_one_length_witness :
  @reachable Fixture.types Fixture.plain Fixture.default_args Fixture.default_object /\
  exists n rest,
    shape (generation_labels Fixture.default_object) = n :: rest /\
    shape0 (generation_classes Fixture.default_object) = Ok n /\
    (Args.n_neutral_labels Fixture.default_args = None ->
     n_neutral_labels Fixture.default_object = Z.of_nat n).
Proof.
  assert (Hreach : @reachable Fixture.types Fixture.plain Fixture.default_args
                     Fixture.default_object)
    by (apply reach_init; vm_compute; reflexivity).
  split; [exact Hreach |].
  exact (@labels_and_classes_have_one_length Fixture.types Fixture.plain
           Fixture.default_args Fixture.default_object Hreach).
Defined.

(** ** The class maps that construction accepts *)

Lemma insert_unique_sorted (x : Z) (l : list Z) :
  StronglySorted Z.lt l -> StronglySorted Z.lt (insert_unique x l).
Proof.
  induction 1 as [| y l Hs IH Hy]; simpl.
  - repeat constructor.
  - destruct (Z.ltb_spec x y) as [Hlt | Hge].
    + constructor; [constructor; assumption |].
      constructor; [assumption |].
      eapply Forall_impl; [| exact Hy]; intros v Hv; simpl in Hv; lia.
    + destruct (Z.eqb_spec x y) as [-> | Hne].
      * constructor; assumption.
      * constructor; [assumption |].
        apply Forall_forall; intros v Hv.
        apply in_insert_unique in Hv as [-> | Hv]; [lia |].
        rewrite Forall_forall in Hy; now apply Hy.
Qed.

Lemma sorted_unique_sorted (l : list Z) : StronglySorted Z.lt (sorted_unique l).
Proof.
  induction l as [| x l IH]; simpl; [constructor | now apply insert_unique_sorted].
Qed.

Lemma range_sorted (s n : nat) : StronglySorted Z.lt (map Z.of_nat (seq s n)).
Proof.
  revert s; induction n as [| n IH]; intros s; simpl; constructor.
  - apply IH.
  - apply Forall_forall; intros v Hv.
    apply in_map_iff in Hv as (i & <- & Hi); apply in_seq in Hi; lia.
Qed.

(** Two increasing lists with the same elements are the same list. *)
Lemma sorted_same_elements (l1 l2 : list Z) :
  StronglySorted Z.lt l1 -> StronglySorted Z.lt l2 ->
  (forall v, In v l1 <-> In v l2) -> l1 = l2.
Proof.
  intros H1; revert l2; induction H1 as [| a l1 Hs1 IH Ha]; intros l2 H2 Hin.
  - destruct l2 as [| b l2]; [reflexivity |].
    exfalso; apply (proj2 (Hin b)); simpl; auto.
  - destruct H2 as [| b l2 Hs2 Hb].
    + exfalso; apply (proj1 (Hin a)); simpl; auto.
    + rewrite Forall_forall in Ha, Hb.
      assert (Hab : a = b).
      { destruct (proj1 (Hin a) (or_introl eq_refl)) as [-> | Ha2]; [reflexivity |].
        destruct (proj2 (Hin b) (or_introl eq_refl)) as [-> | Hb1]; [reflexivity |].
        pose proof (Hb a Ha2); pose proof (Ha b Hb1); lia. }
      subst b; f_equal; apply IH; [assumption |].
      intros v; split; intros Hv.
      * destruct (proj1 (Hin v) (or_intror Hv)) as [<- | Hv2]; [| assumption].
        pose proof (Ha a Hv); lia.
      * destruct (proj2 (Hin v) (or_intror Hv)) as [<- | Hv1]; [| assumption].
        pose proof (Hb a Hv); lia.
Qed.

Lemma sorted_unique_of_range (l : list Z) (K : nat) :
  (forall v, In v l <-> (0 <= v < Z.of_nat K)%Z) ->
  sorted_unique l = map Z.of_nat (seq 0 K).
Proof.
  intros H; apply sorted_same_elements.
  - apply sorted_unique_sorted.
  - apply range_sorted.
  - intros v; rewrite in_sorted_unique, in_range; apply H.
Qed.

Lemma max_of_range (s k : nat) :
  fold_left Z.max (map Z.of_nat (seq (S s) k)) (Z.of_nat s) = Z.of_nat (s + k).
Proof.
  revert s; induction k as [| k IH]; intros s.
  - simpl; f_equal; lia.
  - cbn [seq map fold_left].
    replace (Z.max (Z.of_nat s) (Z.of_nat (S s))) with (Z.of_nat (S s)) by lia.
    rewrite IH; f_equal; lia.
Qed.

Lemma range_NoDup (K : nat) : NoDup (map Z.of_nat (seq 0 K)).
Proof.
  generalize 0; induction K as [| K IH]; intros s; simpl; constructor.
  - intros Hin; apply in_map_iff in Hin as (i & Heq & Hi); apply in_seq in Hi; lia.
  - apply IH.
Qed.

Section AcceptedClassMaps.
Context {T : PyTypes} {C : Collaborators}.

Lemma max_of_sorted_range (K : nat) (d : np_dtype) :
  0 < K ->
  np_max (mk_array [K] (map Z.of_nat (seq 0 K)) d) = Ok (Z.of_nat K - 1)%Z.
Proof.
  intros HK; destruct K as [| k]; [lia |].
  unfold np_max; cbn [data seq map].
  rewrite (max_of_range 0 k); do 2 f_equal; lia.
Qed.

Lemma np_unique_of_range_set (classes : ndarray Z) (K : nat) :
  (forall v, In v (data classes) <-> (0 <= v < Z.of_nat K)%Z) ->
  np_unique classes = mk_array [K] (map Z.of_nat (seq 0 K)) (dtype classes).
Proof.
  intros Hin; unfold np_unique.
  rewrite (sorted_unique_of_range _ _ Hin), length_map, length_seq; reflexivity.
Qed.

Lemma contiguous_classes_pass (arg : or_path (ndarray Z)) (classes labels : ndarray Z)
    (K : nat) :
  load_array_if_path np_load arg = Ok classes ->
  shape classes = shape labels ->
  0 < K ->
  (forall v, In v (data classes) <-> (0 <= v < Z.of_nat K)%Z) ->
  scalar_plus_int numpy_2 (dtype classes) (Z.of_nat K - 1) 1 = Z.of_nat K ->
  init_generation_classes (Some arg) labels = Ok classes.
Proof.
  intros Hload Hshape HK Hin Hsum.
  pose proof (np_unique_of_range_set _ _ Hin) as Hu.
  pose proof (max_of_sorted_range K (dtype classes) HK) as Hmax.
  assert (Hequal : np_array_equal
                     (mk_array [K] (map Z.of_nat (seq 0 K)) (dtype classes))
                     (np_arange (Z.of_nat K)) = true).
  { unfold np_array_equal, np_arange; cbn [shape data mk_ndarray].
    rewrite Nat2Z.id.
    rewrite (proj2 (shape_eqb_true _ _) eq_refl).
    rewrite (proj2 (list_Z_eqb_true _ _) eq_refl); reflexivity. }
  cbn [init_generation_classes]; rewrite Hload; cbn [bind].
  rewrite (proj2 (shape_eqb_true _ _) Hshape); cbn [assert bind].
  rewrite Hu, Hmax; cbn [bind dtype].
  rewrite Hsum, Hequal; reflexivity.
Qed.


(** X8.  For generation labels of shape [(n,)] with [n >= 1], supplying
    [arange(n)] as class map gives what omitting the class map gives;
    for [n = 0] the omitted class map is the empty [arange(0)], while
    the supplied empty class map raises the [ValueError] of [np.max]. *)
Theorem identity_class_map_is_the_default (labels : ndarray Z) (n : nat) :
  shape labels = [n] ->
  init_generation_classes None labels = Ok (np_arange (Z.of_nat n)) /\
  (0 < n ->
   init_generation_classes (Some (Value (np_arange (Z.of_nat n)))) labels
   = init_generation_classes None labels) /\
  (n = 0 ->
   init_generation_classes (Some (Value (np_arange (Z.of_nat n)))) labels
   = Raise (ValueError
       "zero-size array to reduction operation maximum which has no identity")).
Proof.
  intros Hshape.
  assert (Hdefault : init_generation_classes None labels = Ok (np_arange (Z.of_nat n))).
  { simpl; unfold shape0; rewrite Hshape; reflexivity. }
  split; [exact Hdefault |]; split.
  - intros Hn; rewrite Hdefault.
    apply (contiguous_classes_pass _ _ _ n); try assumption.
    + reflexivity.
    + simpl; now rewrite Nat2Z.id, Hshape.
    + intros v; simpl; rewrite Nat2Z.id; apply in_range.
    + unfold scalar_plus_int; cbn [np_arange mk_ndarray dtype wrap].
      destruct numpy_2; lia.
  - intros ->; simpl; rewrite Hshape; reflexivity.
Qed.

(** X9.  In every object a program holds, with the class map supplied
    or not, the class indices are exactly [0 .. K-1] for a [K] that is
    at most the number of entries of the class map: no class index
    reaches the number of labels. *)
Theorem class_indices_bounded (a : Args.t) (self : BrainGenerator) :
  reachable a self ->
  exists K,
    data (np_unique (generation_classes self)) = map Z.of_nat (seq 0 K) /\
    K <= length (data (generation_classes self)) /\
    forall v, In v (data (generation_classes self)) <-> (0 <= v < Z.of_nat K)%Z.
Proof.
  intros Hreach.
  apply reachable_inv in Hreach as (self0 & Hinit & Hcfg & _).
  apply init_inv in Hinit as (Hinit & _).
  apply init_config_inv in Hinit
    as (paths & first & info & labels & _ & _ & _ & _ & Hcls & _).
  rewrite Hcfg.
  assert (H : exists K,
             data (np_unique (generation_classes self0)) = map Z.of_nat (seq 0 K) /\
             forall v, In v (data (generation_classes self0)) <-> (0 <= v < Z.of_nat K)%Z).
  { destruct (Args.generation_classes a) as [arg |].
    - apply supplied_classes_inv in Hcls as (_ & _ & m & Hmax & Heq).
      destruct (contiguous_classes _ m _ Hmax Heq) as (K & _ & Hu & Hin); eauto.
    - apply default_classes_inv in Hcls as (d & _ & ->).
      exists d; simpl; rewrite Nat2Z.id; split.
      + apply sorted_unique_range.
      + intros v; apply in_range. }
  destruct H as (K & Hu & Hin); exists K.
  split; [assumption |]; split; [| assumption].
  apply Nat.le_trans with (length (map Z.of_nat (seq 0 K))).
  - rewrite length_map, length_seq; lia.
  - apply NoDup_incl_length; [apply range_NoDup |].
    intros v Hv; apply Hin, in_range, Hv.
Qed.

End AcceptedClassMaps.


(** The uint8 class map that holds 0 .. 255: under NumPy 2 the sum
    255 + 1 wraps to 0 and the map is refused; under an older NumPy the
    sum is 256 and the map is accepted. *)
Example byte_classes_refused_by_numpy_2 :
  @init_generation_classes Fixture.types Fixture.plain
    (Some (Value Fixture.byte_classes)) Fixture.byte_labels
  = Raise (AssertionError
      "generation_classes should a linear range between 0 and its maximum value.").
Proof. vm_compute; reflexivity. Qed.

Example byte_classes_accepted_by_older_numpy :
  @init_generation_classes Fixture.types Fixture.older_numpy
    (Some (Value Fixture.byte_classes)) Fixture.byte_labels
  = Ok Fixture.byte_classes.
Proof. vm_compute; reflexivity. Qed.

(** The class map onto the classes 0, 1, 2 builds an object. *)
Example three_classes_accepted_at_construction :
  is_ok (@__init__ Fixture.types Fixture.plain Fixture.three_classes_args) = true.
Proof. vm_compute; reflexivity. Qed.

Lemma identity_class_map_is_the_default_witness :
  shape (mk_ndarray [7] [0; 1; 2; 3; 4; 5; 6]%Z) = [7] /\
  0 < 7 /\
  @init_generation_classes Fixture.types Fixture.plain
    (Some (Value (np_arange (Z.of_nat 7)))) (mk_ndarray [7] [0; 1; 2; 3; 4; 5; 6]%Z)
  = @init_generation_classes Fixture.types Fixture.plain
      None (mk_ndarray [7] [0; 1; 2; 3; 4; 5; 6]%Z) /\
  @init_generation_classes Fixture.types Fixture.plain
    (Some (Value (np_arange (Z.of_nat 0)))) (mk_ndarray [0] [])
  = Raise (ValueError
      "zero-size array to reduction operation maximum which has no identity").
Proof.
  assert (H7 : 0 < 7) by lia.
  split; [reflexivity |].
  split; [exact H7 |].
  split.
  - exact (proj1 (proj2 (@identity_class_map_is_the_default Fixture.types Fixture.plain
                           (mk_ndarray [7] [0; 1; 2; 3; 4; 5; 6]%Z) 7 eq_refl)) H7).
  - exact (proj2 (proj2 (@identity_class_map_is_the_default Fixture.types Fixture.plain
                           (mk_ndarray [0] []) 0 eq_refl)) eq_refl).
Defined.

Lemma class_indices_bounded_witness :
  @reachable Fixture.types Fixture.plain Fixture.args Fixture.plain_object /\
  exists K,
    data (np_unique (generation_classes Fixture.plain_object))
    = map Z.of_nat (seq 0 K) /\
    K <= length (data (generation_classes Fixture.plain_object)) /\
    forall v, In v (data (generation_classes Fixture.plain_object))
              <-> (0 <= v < Z.of_nat K)%Z.
Proof.
  assert (Hreach : @reachable Fixture.types Fixture.plain Fixture.args
                     Fixture.plain_object)
    by (apply reach_init; vm_compute; reflexivity).
  split; [exact Hreach |].
  exact (@class_indices_bounded Fixture.types Fixture.plain
           Fixture.args Fixture.plain_object Hreach).
Defined.

(** ** A synthesizer that emits too few samples *)

Section TooFewSamples.
Context {T : PyTypes} {C : Collaborators}.

Lemma getitem_raises {A} (a : ndarray A) (i : nat) (e : exn) :
  getitem a i = Raise e -> e = IndexError.
Proof.
  unfold getitem; destruct (shape a) as [| d s].
  - intros H; now injection H as <-.
  - destruct (i <? d); [discriminate |].
    intros H; now injection H as <-.
Qed.

(** When re-orientation never raises on the samples, the loop either
    ends or raises the [IndexError] of a missing sample. *)
Lemma put_back_ok_or_index_error (cfg : Config) (image target : ndarray scalar) :
  (forall i sample, getitem image i = Ok sample ->
     exists v, align_volume_to_ref sample np_eye4 (aff cfg) (n_dims cfg) = Ok v) ->
  (forall i sample, getitem target i = Ok sample ->
     exists v, align_volume_to_ref sample np_eye4 (aff cfg) (n_dims cfg) = Ok v) ->
  forall range li lt,
    (exists lists, put_back_in_native_space cfg image target range li lt = Ok lists) \/
    put_back_in_native_space cfg image target range li lt = Raise IndexError.
Proof.
  intros Himage Htarget range; induction range as [| i range IH]; intros li lt; simpl.
  - left; eauto.
  - destruct (getitem image i) as [image_i | e] eqn:Ei; simpl.
    + destruct (Himage i image_i Ei) as (im & ->); simpl.
      destruct (getitem target i) as [target_i | e] eqn:Et; simpl.
      * destruct (Htarget i target_i Et) as (tg & ->); simpl; apply IH.
      * right; now rewrite (getitem_raises _ _ _ Et).
    + right; now rewrite (getitem_raises _ _ _ Ei).
Qed.

(** X11.  When the generation loop yields an image batch or a target
    batch with fewer samples than a batch size of at least 1, and
    re-orientation raises on none of the samples, the call raises
    [IndexError]; the bundle is spent and the generator stays
    suspended. *)
Theorem too_few_samples_raise_index_error (self : BrainGenerator) (w : world)
    (canon_image canon_target : ndarray scalar) (self' : BrainGenerator) (w' : world) :
  next_brain_generator self w = (Ok (canon_image, canon_target), self', w') ->
  (1 <= batchsize self)%Z ->
  (forall i sample, getitem canon_image i = Ok sample ->
     exists v, align_volume_to_ref sample np_eye4 (aff self) (n_dims self) = Ok v) ->
  (forall i sample, getitem canon_target i = Ok sample ->
     exists v, align_volume_to_ref sample np_eye4 (aff self) (n_dims self) = Ok v) ->
  (forall d s, shape canon_image = d :: s -> d < Z.to_nat (batchsize self)) \/
  (forall d s, shape canon_target = d :: s -> d < Z.to_nat (batchsize self)) ->
  generate_brain self w = (Raise IndexError, self', w') /\
  brain_generator self' = Suspended.
Proof.
  intros Hnext Hb Himage Htarget Hfew.
  pose proof (next_brain_generator_frame _ _ _ _ _ Hnext) as Hframe.
  assert (Hc : config self' = config self) by (rewrite Hframe; reflexivity).
  split.
  - unfold generate_brain; rewrite Hnext, Hc.
    destruct (put_back_ok_or_index_error (config self) canon_image canon_target
                Himage Htarget (py_range (batchsize self)) [] [])
      as [([li lt] & Hok) | ->]; [exfalso | reflexivity].
    apply put_back_spec in Hok as (ims & tgs & _ & _ & Him & Htg).
    unfold py_range in Him, Htg.
    destruct (Z.to_nat (batchsize self)) as [| b] eqn:HB; [lia |].
    apply realigned_last_in_range in Him as (d & rest & Hd & Hle).
    apply realigned_last_in_range in Htg as (d' & rest' & Hd' & Hle').
    destruct Hfew as [H | H].
    + specialize (H d rest Hd); lia.
    + specialize (H d' rest' Hd'); lia.
  - apply next_brain_generator_ok_inv in Hnext as (_ & bundle & inputs & w1 & _ & _ & Hs).
    rewrite Hs; reflexivity.
Qed.

End TooFewSamples.

Lemma too_few_samples_raise_index_error_witness :
  exists (canon_image canon_target : Fixture.volume) (self' : Fixture.object) (w' : nat),
    @next_brain_generator Fixture.types Fixture.plain Fixture.short_sampler_object 0
    = (Ok (canon_image, canon_target), self', w') /\
    (1 <= batchsize Fixture.short_sampler_object)%Z /\
    shape canon_image = [1; 1; 2; 1; 1] /\
    @generate_brain Fixture.types Fixture.plain Fixture.short_sampler_object 0
    = (Raise IndexError, self', w') /\
    brain_generator self' = Suspended.
Proof.
  do 4 eexists.
  split; [vm_compute; reflexivity |].
  split; [simpl; lia |].
  split; [reflexivity |].
  eapply (@too_few_samples_raise_index_error Fixture.types Fixture.plain
            Fixture.short_sampler_object 0).
  - vm_compute; reflexivity.
  - simpl; lia.
  - intros i sample H; destruct i as [| i]; vm_compute in H; [| discriminate].
    injection H as <-; eexists; vm_compute; reflexivity.
  - intros i sample H; destruct i as [| i]; vm_compute in H; [| discriminate].
    injection H as <-; eexists; vm_compute; reflexivity.
  - left; intros d s H; vm_compute in H; injection H as <- _; vm_compute; lia.
Defined.
